(** * jupyterlab_tensorboard_pro: the WSGI bridge and the instance router

    A shallow embedding of [jupyterlab_tensorboard_pro/handlers.py]:
    [handle_wsgi_request_with_instance], [TensorboardHandler._impl],
    [TensorboardHandler.get], [TensorboardHandler.post] and
    [TensorboardHandler.check_xsrf_cookie], together with the parts of
    [urllib.parse] and of [tornado] these functions call. *)

From Stdlib Require Import ZArith NArith List Bool Lia String Ascii.
From stdpp Require Import base option list gmap.
Import ListNotations.

Local Open Scope N_scope.

(** ** Text and bytes

    A Python [str] is a sequence of code points and a [bytes] object a
    sequence of octets; both are lists of [N].  Decoding [bytes] as latin-1
    (tornado's [to_wsgi_str]) maps every octet to the code point of the same
    value, which is the identity on this representation. *)

Definition str := list N.
Definition bytes := list N.

Definition py (s : string) : str :=
  List.map N_of_ascii (list_ascii_of_string s).

Arguments py : simpl never.

Definition to_wsgi_str (b : bytes) : str := b.

Definition str_eqb (a b : str) : bool := bool_decide (a = b).

(** [c in s] for a single character [c]. *)
Definition contains (c : N) (s : str) : bool := existsb (N.eqb c) s.

Definition percent : N := 37.
Definition space : N := 32.
Definition replacement_character : N := 65533.

(** ** UTF-8

    [str.encode('utf-8')], on Unicode scalar values (the text tornado hands
    to a handler never holds a lone surrogate, the only code points Python
    refuses to encode). *)

Definition utf8_encode_char (c : N) : bytes :=
  if c <? 128 then [c]
  else if c <? 2048 then [192 + c / 64; 128 + c mod 64]
  else if c <? 65536 then
    [224 + c / 4096; 128 + (c / 64) mod 64; 128 + c mod 64]
  else
    [240 + c / 262144; 128 + (c / 4096) mod 64; 128 + (c / 64) mod 64;
     128 + c mod 64].

Definition utf8_encode (s : str) : bytes := flat_map utf8_encode_char s.

Definition is_continuation (b : N) : bool := (128 <=? b) && (b <=? 191).

(** The second octet of a three-octet sequence: E0 needs A0..BF (no
    overlong form), ED needs 80..9F (no surrogate). *)
Definition second_of_3 (b0 b1 : N) : bool :=
  is_continuation b1 &&
  (if b0 =? 224 then 160 <=? b1 else if b0 =? 237 then b1 <? 160 else true).

(** The second octet of a four-octet sequence: F0 needs 90..BF, F4 needs
    80..8F. *)
Definition second_of_4 (b0 b1 : N) : bool :=
  is_continuation b1 &&
  (if b0 =? 240 then 144 <=? b1 else if b0 =? 244 then b1 <? 144 else true).

(** [bytes.decode('utf-8', 'replace')]: every maximal ill-formed run is
    replaced by one U+FFFD and decoding resumes at the octet that broke
    the sequence. *)
Fixpoint utf8_decode_replace (l : bytes) : str :=
  match l with
  | [] => []
  | b0 :: t0 =>
    if b0 <? 128 then b0 :: utf8_decode_replace t0
    else if b0 <? 194 then replacement_character :: utf8_decode_replace t0
    else if b0 <? 224 then
      match t0 with
      | b1 :: t1 =>
        if is_continuation b1
        then ((b0 - 192) * 64 + (b1 - 128)) :: utf8_decode_replace t1
        else replacement_character :: utf8_decode_replace t0
      | [] => [replacement_character]
      end
    else if b0 <? 240 then
      match t0 with
      | b1 :: t1 =>
        if second_of_3 b0 b1 then
          match t1 with
          | b2 :: t2 =>
            if is_continuation b2
            then ((b0 - 224) * 4096 + (b1 - 128) * 64 + (b2 - 128))
                   :: utf8_decode_replace t2
            else replacement_character :: utf8_decode_replace t1
          | [] => [replacement_character]
          end
        else replacement_character :: utf8_decode_replace t0
      | [] => [replacement_character]
      end
    else if b0 <? 245 then
      match t0 with
      | b1 :: t1 =>
        if second_of_4 b0 b1 then
          match t1 with
          | b2 :: t2 =>
            if is_continuation b2 then
              match t2 with
              | b3 :: t3 =>
                if is_continuation b3
                then ((b0 - 240) * 262144 + (b1 - 128) * 4096
                      + (b2 - 128) * 64 + (b3 - 128))
                       :: utf8_decode_replace t3
                else replacement_character :: utf8_decode_replace t2
              | [] => [replacement_character]
              end
            else replacement_character :: utf8_decode_replace t1
          | [] => [replacement_character]
          end
        else replacement_character :: utf8_decode_replace t0
      | [] => [replacement_character]
      end
    else replacement_character :: utf8_decode_replace t0
  end.

(** ** Percent-decoding ([urllib.parse]) *)

(** [s.split(sep)] for a one-character separator: never the empty list. *)
Fixpoint split (sep : N) (s : list N) : list (list N) :=
  match s with
  | [] => [[]]
  | c :: t =>
    if c =? sep then [] :: split sep t
    else match split sep t with
         | w :: ws => (c :: w) :: ws
         | [] => [[c]]
         end
  end.

(** The value of a character of [_hexdig = '0123456789ABCDEFabcdef']. *)
Definition hexval (c : N) : option N :=
  if (48 <=? c) && (c <=? 57) then Some (c - 48)
  else if (65 <=? c) && (c <=? 70) then Some (c - 55)
  else if (97 <=? c) && (c <=? 102) then Some (c - 87)
  else None.

(** One turn of the loop of [unquote_to_bytes] over [bits[1:]]: look
    [item[:2]] up in [_hextobyte]; on [KeyError] keep ['%'] and the item. *)
Definition unquote_item (item : bytes) : bytes :=
  match item with
  | h1 :: h2 :: rest =>
    match hexval h1, hexval h2 with
    | Some a, Some b => (16 * a + b) :: rest
    | _, _ => percent :: item
    end
  | _ => percent :: item
  end.

(** [urllib.parse.unquote_to_bytes(string)] for a [str] argument. *)
Definition unquote_to_bytes (s : str) : bytes :=
  match s with
  | [] => []
  | _ =>
    let string := utf8_encode s in
    match split percent string with
    | first :: ((_ :: _) as items) => first ++ flat_map unquote_item items
    | _ => string
    end
  end.

(** [_asciire.split(string)]: the maximal runs of characters in
    [\x00-\x7f] and the runs between them, each flagged with whether it is
    an ASCII run. *)
Fixpoint ascii_runs (s : str) : list (bool * str) :=
  match s with
  | [] => []
  | c :: t =>
    let a := c <? 128 in
    match ascii_runs t with
    | (a', r) :: rs =>
      if Bool.eqb a a' then (a, c :: r) :: rs else (a, [c]) :: (a', r) :: rs
    | [] => [(a, [c])]
    end
  end.

(** [urllib.parse.unquote(string)] with its defaults [encoding='utf-8'],
    [errors='replace']. *)
Definition unquote (s : str) : str :=
  if negb (contains percent s) then s
  else
    flat_map
      (fun '(a, r) =>
         if a : bool then utf8_decode_replace (unquote_to_bytes r) else r)
      (ascii_runs s).

(** [tornado.escape.url_unescape(value, encoding=None, plus=False)]. *)
Definition url_unescape (value : str) : bytes := unquote_to_bytes value.

(** ** Exceptions, requests and WSGI applications *)

Inductive exn :=
| HTTPError (status_code : Z) (log_message : option str)
| AttributeError
| ValueError
| TypeError
| RuntimeError
| AssertionError
| Exception (message : str).

(** [tornado.httputil.HTTPServerRequest]: the fields this module reads or
    assigns.  [request_headers] is an [HTTPHeaders] object, keyed by
    normalized header names. *)
Record HTTPServerRequest := {
  request_method : str;
  request_path : str;
  request_query : str;
  request_headers : list (str * str)
}.

(** The WSGI environment: the keys derived from the fields above.  The
    other keys the container fills in (server name and port, [wsgi.*],
    [HTTP_*]) are neither read nor written by this module.  A request
    here is one the container builds an environment from: its Host
    header has no port or a numeric one (for any other the container's
    [int] of the port raises before the application is called).  That the
    container moves Content-Type and Content-Length out of the request's
    headers is not followed either: nothing below reads them. *)
Record Environ := {
  REQUEST_METHOD : str;
  SCRIPT_NAME : str;
  PATH_INFO : str;
  QUERY_STRING : str
}.

(** One call [start_response(status, headers, exc_info)]. *)
Record start_response_call := {
  sr_status : str;
  sr_headers : list (str * str);
  sr_exc_info : option exn
}.

(** What a WSGI callable hands back: a [bytes] object, an iterable (the
    items it yields, and whether it has a [close] attribute), or an object
    that cannot be iterated.  An item is [ItemBytes] when [join] takes it
    (a [bytes] object or another bytes-like object, with its content) and
    [ItemOther] when [join] refuses it (a [str], a number, [None]). *)
Inductive item := ItemBytes (b : bytes) | ItemOther.

Inductive wsgi_result :=
| ResBytes (b : bytes)
| ResIterable (items : list item) (has_close : bool)
| ResNotIterable.

Inductive outcome := Returns (result : wsgi_result) | Raises (e : exn).

(** One run of [tb_app(environ, start_response)]: the calls it makes to
    [start_response] before it returns, in order; the calls it makes
    later, while the iterable it returned is consumed (a generator makes
    all its calls then); and how the call itself ends. *)
Record app_run := {
  calls : list start_response_call;
  late_calls : list start_response_call;
  ending : outcome
}.

Definition wsgi_app := Environ -> app_run.

(** An entry of the instance registry; [tb_app] is the field read here. *)
Record Instance := { tb_app : wsgi_app }.

(** What the handler does to the registry, to the application and to the
    object the application returned, in program order. *)
Inductive event :=
| Contains (name : str)
| GetItem (name : str)
| Invoke (app : wsgi_app) (environ : Environ)
| Join
| Close.

(** ** The host

    The behaviour of the interpreter and of the server that the module
    relies on and that depends on versions and configuration. *)
Class Host := {
  (** the builtin [int] on a [str]; [None] stands for [ValueError] *)
  py_int : str -> option Z;
  (** [tornado.httputil._normalize_header] *)
  _normalize_header : str -> str;
  (** the test of [RequestHandler._convert_header_value] *)
  valid_header_value : str -> bool;
  (** truth value of [self.current_user] *)
  current_user : HTTPServerRequest -> bool;
  (** the URL [web.authenticated] redirects an anonymous GET or HEAD to *)
  login_redirect_url : HTTPServerRequest -> str;
  (** [JupyterHandler.check_xsrf_cookie]: [None] when it returns, the
      exception when it raises *)
  super_check_xsrf_cookie : HTTPServerRequest -> option exn;
  (** [JupyterHandler.check_referer] *)
  check_referer : HTTPServerRequest -> bool;
  (** [RequestHandler.check_etag_header] after [set_etag_header]: whether
      the If-None-Match header of the request matches the ETag computed
      for the chunks in the write buffer *)
  etag_matches : HTTPServerRequest -> list bytes -> bool
}.

(** ** The request handler

    [tornado.web.RequestHandler]: the request, the registry held in
    [settings], the response under construction, and the events so far.
    [_write_buffer] holds the chunks passed to [write], and keeps them;
    [flushed] is the body [finish] has sent, once it has. *)
Record RequestHandler := {
  request : HTTPServerRequest;
  tensorboard_manager : gmap str Instance;
  _status_code : Z;
  _headers : list (str * str);
  _write_buffer : list bytes;
  _finished : bool;
  _headers_written : bool;
  flushed : option bytes;
  trace : list event
}.

(** A handler method: it returns or raises, and leaves a handler state. *)
Definition M (A : Type) : Type := RequestHandler -> (exn + A) * RequestHandler.

#[export] Instance M_ret : MRet M := fun A x h => (inr x, h).
#[export] Instance M_bind : MBind M := fun A B f m h =>
  match m h with
  | (inr x, h') => f x h'
  | (inl e, h') => (inl e, h')
  end.

Definition raise {A} (e : exn) : M A := fun h => (inl e, h).
Definition gets {A} (f : RequestHandler -> A) : M A := fun h => (inr (f h), h).
Definition modify (f : RequestHandler -> RequestHandler) : M unit :=
  fun h => (inr tt, f h).
Definition lift {A} (r : exn + A) : M A := fun h => (r, h).

(** Field updates. *)
Definition with_request (r : HTTPServerRequest) (h : RequestHandler) :=
  {| request := r; tensorboard_manager := tensorboard_manager h;
     _status_code := _status_code h; _headers := _headers h;
     _write_buffer := _write_buffer h; _finished := _finished h;
     _headers_written := _headers_written h; flushed := flushed h;
     trace := trace h |}.

Definition with_status (c : Z) (h : RequestHandler) :=
  {| request := request h; tensorboard_manager := tensorboard_manager h;
     _status_code := c; _headers := _headers h;
     _write_buffer := _write_buffer h; _finished := _finished h;
     _headers_written := _headers_written h; flushed := flushed h;
     trace := trace h |}.

Definition with_headers (hs : list (str * str)) (h : RequestHandler) :=
  {| request := request h; tensorboard_manager := tensorboard_manager h;
     _status_code := _status_code h; _headers := hs;
     _write_buffer := _write_buffer h; _finished := _finished h;
     _headers_written := _headers_written h; flushed := flushed h;
     trace := trace h |}.

Definition with_buffer (b : list bytes) (h : RequestHandler) :=
  {| request := request h; tensorboard_manager := tensorboard_manager h;
     _status_code := _status_code h; _headers := _headers h;
     _write_buffer := b; _finished := _finished h;
     _headers_written := _headers_written h; flushed := flushed h;
     trace := trace h |}.

Definition finished (h : RequestHandler) :=
  {| request := request h; tensorboard_manager := tensorboard_manager h;
     _status_code := _status_code h; _headers := _headers h;
     _write_buffer := _write_buffer h; _finished := true;
     _headers_written := true; flushed := flushed h; trace := trace h |}.

Definition with_trace (t : list event) (h : RequestHandler) :=
  {| request := request h; tensorboard_manager := tensorboard_manager h;
     _status_code := _status_code h; _headers := _headers h;
     _write_buffer := _write_buffer h; _finished := _finished h;
     _headers_written := _headers_written h; flushed := flushed h;
     trace := t |}.

Definition with_flushed (b : bytes) (h : RequestHandler) :=
  {| request := request h; tensorboard_manager := tensorboard_manager h;
     _status_code := _status_code h; _headers := _headers h;
     _write_buffer := _write_buffer h; _finished := _finished h;
     _headers_written := _headers_written h; flushed := Some b;
     trace := trace h |}.

Definition log (e : event) : M unit :=
  modify (fun h => with_trace (trace h ++ [e]) h).

Fixpoint for_each {A} (l : list A) (body : A -> M unit) : M unit :=
  match l with
  | [] => mret tt
  | x :: t => body x ;; for_each t body
  end.

(** The request with [path] assigned to its [path] field. *)
Definition with_path (path : str) (r : HTTPServerRequest) : HTTPServerRequest :=
  {| request_method := request_method r;
     request_path := path;
     request_query := request_query r;
     request_headers := request_headers r |}.

(** [self.request.path = path] *)
Definition set_request_path (path : str) : M unit :=
  modify (fun h => with_request (with_path path (request h)) h).

(** [dict.get] on an association list. *)
Fixpoint assoc (k : str) (l : list (str * str)) : option str :=
  match l with
  | [] => None
  | (k', v) :: t => if str_eqb k k' then Some v else assoc k t
  end.

(** [d[k] = v] on an insertion-ordered dictionary: a key already present
    keeps its place and takes the new value, a new key goes last. *)
Fixpoint header_set (k v : str) (l : list (str * str)) : list (str * str) :=
  match l with
  | [] => [(k, v)]
  | (k', v') :: t =>
    if str_eqb k k' then (k, v) :: t else (k', v') :: header_set k v t
  end.

Section Handlers.
Context `{Host}.

(** [HTTPHeaders.get(name)] *)
Definition headers_get (name : str) (hs : list (str * str)) : option str :=
  assoc (_normalize_header name) hs.

(** *** The response channel ([tornado.web.RequestHandler])

    [finish] closes the response: it refuses a body for the statuses
    that carry none, and answers a conditional GET whose ETag matches
    with 304 and no body.  The headers it adds of its own when it flushes
    (Content-Length, Etag) are outside this model. *)

Definition set_status (status_code : Z) : M unit :=
  modify (with_status status_code).

(** [self._headers[name] = self._convert_header_value(value)] *)
Definition set_header (name value : str) : M unit :=
  if valid_header_value value then
    modify (fun h =>
      with_headers (header_set (_normalize_header name) value (_headers h)) h)
  else raise ValueError.

Definition write (chunk : bytes) : M unit :=
  is_finished ← gets _finished;
  if is_finished : bool then raise RuntimeError
  else modify (fun h => with_buffer (_write_buffer h ++ [chunk]) h).

(** [self._status_code in (204, 304) or 100 <= self._status_code < 200] *)
Definition no_body_status (c : Z) : bool :=
  ((c =? 204) || (c =? 304) || ((100 <=? c) && (c <? 200)))%Z.

(** [clear_header(name)] on the header store. *)
Definition clear_header (name : str) (hs : list (str * str))
  : list (str * str) :=
  List.filter (fun kv => negb (str_eqb kv.1 (_normalize_header name))) hs.

Definition _clear_representation_headers (hs : list (str * str))
  : list (str * str) :=
  clear_header (py "Content-Type")
    (clear_header (py "Content-Language")
       (clear_header (py "Content-Encoding") hs)).

(** The test under which [finish] answers 304 instead: status 200, method
    GET or HEAD, no Etag header set so far, and [check_etag_header]. *)
Definition not_modified (h : RequestHandler) : bool :=
  (_status_code h =? 200)%Z
  && (str_eqb (request_method (request h)) (py "GET")
      || str_eqb (request_method (request h)) (py "HEAD"))
  && match headers_get (py "Etag") (_headers h) with
     | Some _ => false
     | None => true
     end
  && etag_matches (request h) (_write_buffer h).

(** [finish()]: twice is an error; when the headers are still to be
    written, a matching conditional request becomes a 304 with the buffer
    dropped, and a status without body must come with an empty buffer
    (the [assert]) and loses its representation headers; then the buffer
    is flushed and the response is finished. *)
Definition finish : M unit := fun h =>
  if _finished h then (inl RuntimeError, h)
  else if _headers_written h then
    (inr tt, finished (with_flushed (concat (_write_buffer h)) h))
  else if not_modified h then
    (inr tt,
     finished (with_flushed []
       (with_headers (_clear_representation_headers (_headers h))
          (with_status 304 h))))
  else if no_body_status (_status_code h) then
    match _write_buffer h with
    | [] =>
      (inr tt,
       finished (with_flushed []
         (with_headers (_clear_representation_headers (_headers h)) h)))
    | _ :: _ => (inl AssertionError, h)
    end
  else (inr tt, finished (with_flushed (concat (_write_buffer h)) h)).

Definition redirect (url : str) (permanent : bool) : M unit :=
  written ← gets _headers_written;
  if written : bool
  then raise (Exception (py "Cannot redirect after headers have been written"))
  else
    set_status (if permanent then 301 else 302)%Z ;;
    set_header (py "Location") (utf8_encode url) ;;
    finish.

(** [@web.authenticated] *)
Definition authenticated (method : M unit) : M unit :=
  request ← gets request;
  if current_user request then method
  else if str_eqb (request_method request) (py "GET")
          || str_eqb (request_method request) (py "HEAD")
  then redirect (login_redirect_url request) false
  else raise (HTTPError 403 None).

(** *** [WSGIContainer.environ] *)
Definition environ (request : HTTPServerRequest) : Environ :=
  {| REQUEST_METHOD := request_method request;
     SCRIPT_NAME := [];
     PATH_INFO := to_wsgi_str (url_unescape (request_path request));
     QUERY_STRING := request_query request |}.

(** *** [handle_wsgi_request_with_instance] *)

Record response_data := {
  rd_status : option str;
  rd_headers : list (str * str)
}.

Record response := {
  status_code : Z;
  headers : list (str * str);
  body : bytes
}.

Definition start_response (rd : response_data) (c : start_response_call)
  : response_data :=
  {| rd_status := Some (sr_status c); rd_headers := sr_headers c |}.

(** [s.split(" ")[0]] *)
Definition first_token (s : str) : str := hd [] (split space s).

(** [b"".join(result)] *)
Fixpoint join (items : list item) : exn + bytes :=
  match items with
  | [] => inr []
  | ItemBytes b :: t =>
    match join t with
    | inr rest => inr (b ++ rest)
    | inl e => inl e
    end
  | ItemOther :: _ => inl TypeError
  end.

(** The two statements under "Build environ from request":
    [environ = _FAKE_WSGI_CONTAINER.environ(request)] and
    [environ["PATH_INFO"] = unquote(environ["PATH_INFO"])]. *)
Definition build_environ (request : HTTPServerRequest) : Environ :=
  let environ := environ request in
  {| REQUEST_METHOD := REQUEST_METHOD environ;
     SCRIPT_NAME := SCRIPT_NAME environ;
     PATH_INFO := unquote (PATH_INFO environ);
     QUERY_STRING := QUERY_STRING environ |}.

Definition handle_wsgi_request_with_instance
    (tb_app : wsgi_app) (request : HTTPServerRequest) : M response :=
  let environ := build_environ request in
  let response_data := {| rd_status := None; rd_headers := [] |} in
  log (Invoke tb_app environ) ;;
  let run := tb_app environ in
  let response_data := fold_left start_response (calls run) response_data in
  match ending run with
  | Raises e => raise e
  | Returns result =>
    match rd_status response_data with
    | None => raise AttributeError
    | Some status =>
      match py_int (first_token status) with
      | None => raise ValueError
      | Some code =>
        match result with
        | ResBytes b =>
          mret {| status_code := code; headers := rd_headers response_data;
                  body := b |}
        | ResIterable items _ =>
          let headers := rd_headers response_data in
          log Join ;;
          (* what the application passes to [start_response] while it is
             iterated goes into [response_data], read no more *)
          let response_data :=
            fold_left start_response (late_calls run) response_data in
          b ← lift (join items);
          mret {| status_code := code; headers := headers; body := b |}
        | ResNotIterable => raise TypeError
        end
      end
    end
  end.

(** *** [TensorboardHandler] *)

Definition _impl (name path : str) : M unit :=
  set_request_path path ;;
  manager ← gets tensorboard_manager;
  log (Contains name) ;;
  match manager !! name with
  | Some instance =>
    log (GetItem name) ;;
    let tb_app := tb_app instance in
    request ← gets request;
    response ← handle_wsgi_request_with_instance tb_app request;
    set_status (status_code response) ;;
    for_each (headers response)
      (fun '(header_name, header_value) =>
         set_header header_name header_value) ;;
    write (body response) ;;
    finish
  | None => raise (HTTPError 404 None)
  end.

Definition get (name path : str) : M unit :=
  authenticated (
    if str_eqb path [] then
      request ← gets request;
      let uri := request_path request ++ py "/" in
      let uri :=
        match request_query request with
        | [] => uri
        | _ => uri ++ py "?" ++ request_query request
        end in
      redirect uri true
    else _impl name path).

Definition post (name path : str) : M unit :=
  authenticated (
    if str_eqb path [] then raise (HTTPError 403 None)
    else _impl name path).

(** *** [TbFontHandler] *)

Definition TbFontHandler_get : M unit :=
  authenticated (
    manager ← gets tensorboard_manager;
    log (Contains (py "1")) ;;
    match manager !! py "1" with
    | Some instance =>
      log (GetItem (py "1")) ;;
      let tb_app := tb_app instance in
      request ← gets request;
      response ← handle_wsgi_request_with_instance tb_app request;
      set_status (status_code response) ;;
      for_each (headers response)
        (fun '(header_name, header_value) =>
           set_header header_name header_value) ;;
      write (body response) ;;
      finish
    | None => raise (HTTPError 404 None)
    end).

(** *** [TensorboardHandler.check_xsrf_cookie] *)

Definition check_xsrf_cookie : M unit :=
  request ← gets request;
  match super_check_xsrf_cookie request with
  | None => mret tt
  | Some (HTTPError code message) =>
    if str_eqb (request_method request) (py "POST") then
      if negb (check_referer request) then
        match headers_get (py "Referer") (request_headers request) with
        | Some ((_ :: _) as referer) =>
          raise (HTTPError 403
                   (Some (py "Blocking Cross Origin request from "
                          ++ referer ++ py ".")))
        | _ =>
          raise (HTTPError 403 (Some (py "Blocking request from unknown origin")))
        end
      else mret tt
    else raise (HTTPError code message)
  | Some e => raise e
  end.

End Handlers.

(** The status tornado answers with when a handler method raises
    ([RequestHandler._handle_request_exception]). *)
Definition status_of_exception (e : exn) : Z :=
  match e with
  | HTTPError code _ => code
  | _ => 500%Z
  end.

(** A handler as it stands when one of its methods is entered. *)
Definition prepare (r : HTTPServerRequest) (manager : gmap str Instance)
    (default_headers : list (str * str)) : RequestHandler :=
  {| request := r; tensorboard_manager := manager;
     _status_code := 200%Z; _headers := default_headers;
     _write_buffer := []; _finished := false; _headers_written := false;
     flushed := None; trace := [] |}.

(** The applications called in a trace, with the environment each got. *)
Fixpoint invoked (t : list event) : list (wsgi_app * Environ) :=
  match t with
  | [] => []
  | Invoke app e :: t' => (app, e) :: invoked t'
  | _ :: t' => invoked t'
  end.

Definition is_ascii (s : str) : Prop := Forall (fun c => c < 128) s.

(** [item] starts with two hexadecimal digits: a key of [_hextobyte]. *)
Definition is_escape (item : bytes) : bool :=
  match item with
  | h1 :: h2 :: _ =>
    match hexval h1, hexval h2 with
    | Some _, Some _ => true
    | _, _ => false
    end
  | _ => false
  end.

(** No ['%'] of [s] is followed by two hexadecimal digits. *)
Definition no_escape (s : str) : bool :=
  forallb (fun item => negb (is_escape item)) (tl (split percent s)).

(** A step that leaves the trace alone. *)
Definition quiet {A} (m : M A) : Prop := forall h, trace (m h).2 = trace h.

(** The last four statements of the found branch of [_impl]: the replay
    of a captured response onto the connection. *)
Definition replay `{Host} (r : response) : M unit :=
  set_status (status_code r) ;;
  for_each (headers r)
    (fun '(header_name, header_value) => set_header header_name header_value) ;;
  write (body r) ;;
  finish.



(** ** A sample host and sample applications *)

Definition is_digit (c : N) : bool := (48 <=? c) && (c <=? 57).

Fixpoint decimal (acc : Z) (s : str) : option Z :=
  match s with
  | [] => Some acc
  | c :: t =>
    if is_digit c then decimal (10 * acc + Z.of_N (c - 48)) t else None
  end.

(** [int] on a run of ASCII digits, the only numerals this host is asked
    about. *)
Definition decimal_int (s : str) : option Z :=
  match s with
  | [] => None
  | _ => decimal 0 s
  end.

Definition upper (c : N) : N :=
  if (97 <=? c) && (c <=? 122) then c - 32 else c.
Definition lower (c : N) : N :=
  if (65 <=? c) && (c <=? 90) then c + 32 else c.

(** [w.capitalize()] on ASCII text. *)
Definition capitalize (w : str) : str :=
  match w with
  | [] => []
  | c :: t => upper c :: List.map lower t
  end.

Fixpoint join_with (sep : N) (ws : list str) : str :=
  match ws with
  | [] => []
  | [w] => w
  | w :: ws' => w ++ sep :: join_with sep ws'
  end.

(** ["-".join([w.capitalize() for w in name.split("-")])] *)
Definition http_header_case (name : str) : str :=
  join_with 45 (List.map capitalize (split 45 name)).

(** [_VALID_HEADER_CHARS.fullmatch], tornado 6.5:
    [[\x09\x20-\x7e\x80-\xff]*]. *)
Definition field_value_chars (v : str) : bool :=
  forallb (fun c => (c =? 9) || ((32 <=? c) && (c <=? 126))
                    || ((128 <=? c) && (c <=? 255))) v.

Fixpoint starts_with (prefix s : str) : bool :=
  match prefix, s with
  | [], _ => true
  | p :: prefix', c :: s' => (p =? c) && starts_with prefix' s'
  | _ :: _, [] => false
  end.

(** A server at [localhost:8888]; [logged_in] says whether there is a
    current user and [token_ok] whether the request carries a good XSRF
    token.  Its clients send no If-None-Match header, or the one that
    matches every ETag. *)
Definition sample_host (logged_in token_ok : bool) : Host :=
  {| py_int := decimal_int;
     _normalize_header := http_header_case;
     valid_header_value := field_value_chars;
     current_user := fun _ => logged_in;
     login_redirect_url := fun _ => py "/login?next=%2F";
     super_check_xsrf_cookie := fun _ =>
       if token_ok then None
       else Some (HTTPError 403 (Some (py "'_xsrf' argument missing from POST")));
     check_referer := fun r =>
       match assoc (py "Referer") (request_headers r) with
       | Some v => starts_with (py "http://localhost:8888/") v
       | None => false
       end;
     etag_matches := fun r _ =>
       match assoc (py "If-None-Match") (request_headers r) with
       | Some v => str_eqb v (py "*")
       | None => false
       end |}.

Definition sample_request (method path query : string)
    (hs : list (str * str)) : HTTPServerRequest :=
  {| request_method := py method; request_path := py path;
     request_query := py query; request_headers := hs |}.

(** The application of the scenario: ["200 OK"], one header, [[b"hello"]]. *)
Definition app_echo : wsgi_app := fun _ =>
  {| calls := [ {| sr_status := py "200 OK";
                   sr_headers := [(py "Content-Type", py "text/plain")];
                   sr_exc_info := None |} ];
     late_calls := [];
     ending := Returns (ResIterable [ItemBytes (py "hello")] false) |}.


(** An application that returns without calling [start_response]. *)
Definition app_silent : wsgi_app := fun _ =>
  {| calls := []; late_calls := [];
     ending := Returns (ResIterable [ItemBytes (py "hi")] false) |}.

(** An application whose result has a [close] method. *)
Definition app_closing : wsgi_app := fun _ =>
  {| calls := [ {| sr_status := py "200 OK"; sr_headers := [];
                   sr_exc_info := None |} ];
     late_calls := [];
     ending := Returns (ResIterable [ItemBytes (py "he"); ItemBytes (py "llo")] true) |}.

(** An application that calls [start_response] twice, the second time with
    [exc_info]. *)
Definition app_twice : wsgi_app := fun _ =>
  {| calls := [ {| sr_status := py "200 OK";
                   sr_headers := [(py "Content-Type", py "text/plain")];
                   sr_exc_info := None |};
                {| sr_status := py "500 Internal Server Error";
                   sr_headers := [(py "X-Error", py "1")];
                   sr_exc_info := Some (Exception (py "boom")) |} ];
     late_calls := [];
     ending := Returns (ResBytes (py "failed")) |}.

Definition sample_manager : gmap str Instance :=
  {[ py "1" := {| tb_app := app_echo |} ]}.

(** The host of the examples: a logged-in user whose requests carry no
    XSRF token. *)
Definition server : Host := sample_host true false.

(** A request for [path] with no query and no header, on a fresh handler
    over the registry [{"1": app}]. *)
Definition arriving (method path : string) (app : wsgi_app) : RequestHandler :=
  prepare (sample_request method path "" [])
    {[ py "1" := {| tb_app := app |} ]} [].

(** The values of [PATH_INFO] the applications were called with. *)
Definition path_infos (t : list event) : list str :=
  List.map (fun ae => PATH_INFO ae.2) (invoked t).

(** ** The extension bootstrap ([load_jupyter_server_extension]) *)

Definition slash : N := 47.

(** [s.startswith("/")] and [s.endswith("/")] *)
Definition startswith_slash (s : str) : bool :=
  match s with
  | c :: _ => c =? slash
  | [] => false
  end.

Definition endswith_slash (s : str) : bool := startswith_slash (rev s).

(** [s.lstrip("/")], [s.rstrip("/")] and [s.strip("/")] *)
Fixpoint lstrip (s : str) : str :=
  match s with
  | c :: t => if c =? slash then lstrip t else s
  | [] => []
  end.

Definition rstrip (s : str) : str := rev (lstrip (rev s)).

Definition strip (s : str) : str := rstrip (lstrip s).

Definition nonempty (s : str) : bool :=
  match s with
  | [] => false
  | _ => true
  end.

(** [jupyter_server.utils.url_path_join], imported as [ujoin]:
    the pieces stripped of their slashes and joined by one slash, the
    empty ones left out, with the initial slash of the first piece and the
    final slash of the last one kept. *)
Definition ujoin (pieces : list str) : str :=
  let initial := startswith_slash (hd [] pieces) in
  let final := endswith_slash (List.last pieces []) in
  let stripped := List.map strip pieces in
  let result := join_with slash (List.filter nonempty stripped) in
  let result := if initial then slash :: result else result in
  let result := if final then result ++ [slash] else result in
  if str_eqb result [slash; slash] then [slash] else result.

(** [jupyter_server.base.handlers.path_regex] *)
Definition path_regex : str := py "(?P<path>(?:(?:/[^/]+)+|/?))".

(** The handler classes the routes are bound to. *)
Inductive handler_class :=
| TensorboardHandler
| TbRootHandler
| TbRootConfigHandler
| TbInstanceHandler
| TbFontHandler
| TensorboardErrorHandler.

(** The server application as the bootstrap sees it: the root directory of
    its contents manager, [settings['base_url']], the entry
    [settings["tensorboard_manager"]] if there is one, the calls made to
    [web_app.add_handlers] and the messages sent to [log.info]. *)
Record ServerApp := {
  root_dir : str;
  base_url : str;
  settings_tensorboard_manager : option (gmap str Instance);
  added_handlers : list (str * list (str * handler_class));
  info : list str
}.

(** The route suffixes, before they are joined to the base URL. *)
Definition instance_route : str :=
  py "/tensorboard_pro/(?P<name>\w+)" ++ path_regex.

Definition full_routes : list (str * handler_class) :=
  [ (instance_route, TensorboardHandler);
    (py "/api/tensorboard_pro", TbRootHandler);
    (py "/api/tensorboard_pro_static_config", TbRootConfigHandler);
    (py "/api/tensorboard_pro/(?P<name>\w+)", TbInstanceHandler);
    (py "/font-roboto/.*", TbFontHandler) ].

Definition error_routes : list (str * handler_class) :=
  [ (py "/tensorboard_pro.*", TensorboardErrorHandler) ].

(** [load_jupyter_server_extension(nb_app)].  [imported] is what
    [from .tensorboard_manager import manager] gives: the manager, or
    [None] for [ImportError].  The result is the new value of the global
    [notebook_dir] and the application afterwards. *)
Definition load_jupyter_server_extension
    (imported : option (gmap str Instance)) (nb_app : ServerApp)
  : str * ServerApp :=
  let notebook_dir := root_dir nb_app in
  let base_url := base_url nb_app in
  let mount := List.map (fun '(route, cls) => (ujoin [base_url; route], cls)) in
  let '(messages, manager, handlers) :=
    match imported with
    | None =>
      ([py "import tensorboard error, check tensorflow install"],
       settings_tensorboard_manager nb_app,
       mount error_routes)
    | Some manager => ([], Some manager, mount full_routes)
    end in
  (notebook_dir,
   {| root_dir := root_dir nb_app;
      base_url := base_url;
      settings_tensorboard_manager := manager;
      added_handlers := added_handlers nb_app ++ [(py ".*$", handlers)];
      info := info nb_app ++ messages
              ++ [py "jupyterlab_tensorboard_pro extension loaded."] |}).

(** ** Vocabulary of the further properties *)

(** A step that leaves the part [f] of the handler as it was. *)
Definition preserves {A X} (f : RequestHandler -> X) (m : M A) : Prop :=
  forall h, f (m h).2 = f h.

(** What [start_response] stores of a call. *)
Definition stored (c : start_response_call) : str * list (str * str) :=
  (sr_status c, sr_headers c).

(** The prefix [ujoin(base_url, route)] puts before a route. *)
Definition mount_prefix (base_url : str) : str :=
  match strip base_url with
  | [] => []
  | b => slash :: b
  end.

(** The two digits of [%XX]. *)
Definition hexdigit (n : N) : N := if n <? 10 then 48 + n else 55 + n.

(** A text with every character written as an escape [%XX]. *)
Definition escape_all (s : bytes) : str :=
  flat_map (fun c => [percent; hexdigit (c / 16); hexdigit (c mod 16)]) s.

(** Whether an exception is a [tornado.web.HTTPError]. *)
Definition is_http_error (e : exn) : bool :=
  match e with
  | HTTPError _ _ => true
  | _ => false
  end.

(** A server mounted at [/lab/], before the extension is loaded. *)
Definition sample_app : ServerApp :=
  {| root_dir := py "/home/user"; base_url := py "/lab/";
     settings_tensorboard_manager := None; added_handlers := [];
     info := [] |}.

(** An application that raises after a call to [start_response]. *)
Definition app_failing : wsgi_app := fun _ =>
  {| calls := [ {| sr_status := py "200 OK"; sr_headers := [];
                   sr_exc_info := None |} ];
     late_calls := [];
     ending := Raises (Exception (py "backend down")) |}.

(** An application whose status line does not start with a number. *)
Definition app_bad_status : wsgi_app := fun _ =>
  {| calls := [ {| sr_status := py "OK 200"; sr_headers := [];
                   sr_exc_info := None |} ];
     late_calls := [];
     ending := Returns (ResBytes (py "x")) |}.

(** An application that sets a header value with a line break. *)
Definition app_bad_header : wsgi_app := fun _ =>
  {| calls := [ {| sr_status := py "200 OK";
                   sr_headers := [(py "X-A", py "1"); (py "X-B", [10])];
                   sr_exc_info := None |} ];
     late_calls := [];
     ending := Returns (ResBytes (py "x")) |}.

(** An application that calls [start_response] before it returns and
    again, with another status, while its result is iterated. *)
Definition app_late : wsgi_app := fun _ =>
  {| calls := [ {| sr_status := py "200 OK";
                   sr_headers := [(py "Content-Type", py "text/plain")];
                   sr_exc_info := None |} ];
     late_calls := [ {| sr_status := py "500 Internal Server Error";
                        sr_headers := [(py "X-Error", py "1")];
                        sr_exc_info := Some (Exception (py "boom")) |} ];
     ending := Returns (ResIterable [ItemBytes (py "partial")] false) |}.

(** A generator application: its body runs, and calls [start_response]
    twice, only when the result is iterated. *)
Definition app_generator : wsgi_app := fun _ =>
  {| calls := [];
     late_calls := [ {| sr_status := py "200 OK"; sr_headers := [];
                        sr_exc_info := None |};
                     {| sr_status := py "200 OK";
                        sr_headers := [(py "Content-Type", py "text/plain")];
                        sr_exc_info := None |} ];
     ending := Returns (ResIterable [ItemBytes (py "hello")] false) |}.


(** [app_twice] without the [exc_info] of its second call. *)
Definition app_twice_plain : wsgi_app := fun _ =>
  {| calls := [ {| sr_status := py "200 OK";
                   sr_headers := [(py "Content-Type", py "text/plain")];
                   sr_exc_info := None |};
                {| sr_status := py "500 Internal Server Error";
                   sr_headers := [(py "X-Error", py "1")];
                   sr_exc_info := None |} ];
     late_calls := [];
     ending := Returns (ResBytes (py "failed")) |}.

(** A host whose inherited XSRF check breaks down. *)
Definition broken_host : Host :=
  {| py_int := decimal_int;
     _normalize_header := http_header_case;
     valid_header_value := field_value_chars;
     current_user := fun _ => true;
     login_redirect_url := fun _ => py "/login?next=%2F";
     super_check_xsrf_cookie := fun _ => Some RuntimeError;
     check_referer := fun _ => true;
     etag_matches := fun _ _ => false |}.

(** A host without a current user. *)
Definition anonymous : Host := sample_host false false.

(** * Properties *)

(** Closes [is_ascii s] for a given text [s]. *)
Ltac ascii_text :=
  unfold is_ascii; apply (bool_decide_unpack _); vm_compute; exact I.

(** ** Percent-decoding *)

Lemma utf8_encode_ascii (s : str) : is_ascii s -> utf8_encode s = s.
Proof.
  induction 1 as [|c s Hc _ IH]; [reflexivity|].
  cbn. unfold utf8_encode_char.
  apply N.ltb_lt in Hc. rewrite Hc. cbn. f_equal. exact IH.
Qed.

Lemma utf8_decode_ascii (s : bytes) : is_ascii s -> utf8_decode_replace s = s.
Proof.
  induction 1 as [|c s Hc _ IH]; [reflexivity|].
  cbn. apply N.ltb_lt in Hc. rewrite Hc. f_equal. exact IH.
Qed.

Lemma split_not_nil sep s : split sep s <> [].
Proof.
  destruct s as [|c t]; cbn; [discriminate|].
  destruct (c =? sep); [discriminate|].
  destruct (split sep t); discriminate.
Qed.

(** Joining the pieces of [split] with the separator gives the text back. *)
Lemma split_join sep s first rest :
  split sep s = first :: rest ->
  first ++ flat_map (cons sep) rest = s.
Proof.
  revert first rest. induction s as [|c t IH]; intros first rest Hs; cbn in Hs.
  - injection Hs as <- <-. reflexivity.
  - destruct (c =? sep) eqn:Hc.
    + apply N.eqb_eq in Hc. subst c.
      injection Hs as <- <-. cbn.
      destruct (split sep t) as [|w ws] eqn:Ht; [now apply split_not_nil in Ht|].
      cbn. f_equal. now apply IH.
    + destruct (split sep t) as [|w ws] eqn:Ht; [now apply split_not_nil in Ht|].
      injection Hs as <- <-. cbn. f_equal. now apply IH.
Qed.

Lemma split_no_sep sep s : contains sep s = false -> split sep s = [s].
Proof.
  unfold contains. induction s as [|c t IH]; cbn; [reflexivity|].
  intros Hc. apply orb_false_iff in Hc as [Hc Ht].
  rewrite N.eqb_sym in Hc. rewrite Hc, (IH Ht). reflexivity.
Qed.

Lemma unquote_item_kept item :
  is_escape item = false -> unquote_item item = percent :: item.
Proof.
  unfold is_escape, unquote_item.
  destruct item as [|h1 [|h2 rest]]; try reflexivity.
  destruct (hexval h1), (hexval h2); (discriminate || reflexivity).
Qed.

Lemma flat_map_unquote_kept items :
  forallb (fun item => negb (is_escape item)) items = true ->
  flat_map unquote_item items = flat_map (cons percent) items.
Proof.
  induction items as [|item items IH]; cbn; [reflexivity|].
  intros Hi. apply andb_true_iff in Hi as [Hi Hs].
  apply negb_true_iff in Hi.
  rewrite (unquote_item_kept _ Hi), (IH Hs). reflexivity.
Qed.

Lemma unquote_to_bytes_no_escape (s : str) :
  is_ascii s -> no_escape s = true -> unquote_to_bytes s = s.
Proof.
  intros Ha Hn. unfold unquote_to_bytes.
  destruct s as [|c t]; [reflexivity|].
  rewrite (utf8_encode_ascii _ Ha).
  unfold no_escape in Hn.
  destruct (split percent (c :: t)) as [|first [|i items]] eqn:Hs;
    [reflexivity|reflexivity|].
  cbn [tl] in Hn. rewrite (flat_map_unquote_kept _ Hn).
  now apply split_join.
Qed.

Lemma ascii_runs_ascii (s : str) :
  is_ascii s -> s <> [] -> ascii_runs s = [(true, s)].
Proof.
  induction 1 as [|c s Hc Hs IH]; [congruence|]. intros _.
  cbn. apply N.ltb_lt in Hc. rewrite Hc.
  destruct s as [|d s']; [reflexivity|].
  rewrite IH by discriminate. reflexivity.
Qed.

Lemma unquote_no_escape (s : str) :
  is_ascii s -> no_escape s = true -> unquote s = s.
Proof.
  intros Ha Hn. unfold unquote.
  destruct (contains percent s) eqn:Hc; [|reflexivity]. cbn [negb].
  destruct s as [|c t]; [discriminate|].
  rewrite (ascii_runs_ascii _ Ha) by discriminate. cbn [flat_map].
  rewrite app_nil_r, (unquote_to_bytes_no_escape _ Ha Hn).
  now apply utf8_decode_ascii.
Qed.

Lemma no_percent_no_escape (s : str) :
  contains percent s = false -> no_escape s = true.
Proof.
  intros Hc. unfold no_escape. rewrite (split_no_sep _ _ Hc). reflexivity.
Qed.

Section Properties.
Context `{Host}.

(** A path without a well-formed escape reaches [PATH_INFO] unchanged. *)
Lemma build_environ_no_escape (r : HTTPServerRequest) :
  is_ascii (request_path r) -> no_escape (request_path r) = true ->
  PATH_INFO (build_environ r) = request_path r.
Proof.
  intros Ha Hn. cbn. unfold to_wsgi_str, url_unescape.
  rewrite (unquote_to_bytes_no_escape _ Ha Hn).
  now apply unquote_no_escape.
Qed.

(** *** Steps that leave the trace alone *)

Lemma quiet_ret {A} (x : A) : quiet (mret x).
Proof. intros h. reflexivity. Qed.

Lemma quiet_raise {A} (e : exn) : quiet (@raise A e).
Proof. intros h. reflexivity. Qed.

Lemma quiet_gets {A} (f : RequestHandler -> A) : quiet (gets f).
Proof. intros h. reflexivity. Qed.

Lemma quiet_bind {A B} (m : M A) (f : A -> M B) :
  quiet m -> (forall x, quiet (f x)) -> quiet (m ≫= f).
Proof.
  intros Hm Hf h. unfold mbind, M_bind.
  specialize (Hm h). destruct (m h) as [[e|x] h']; cbn in *; [exact Hm|].
  rewrite (Hf x h'). exact Hm.
Qed.

Lemma quiet_set_status c : quiet (set_status c).
Proof. intros h. reflexivity. Qed.

Lemma quiet_set_header k v : quiet (set_header k v).
Proof. intros h. unfold set_header. destruct (valid_header_value v); reflexivity. Qed.

Lemma quiet_write b : quiet (write b).
Proof.
  apply quiet_bind; [apply quiet_gets|]. intros [|]; intros h; reflexivity.
Qed.

Lemma quiet_finish : quiet finish.
Proof.
  intros h. unfold finish.
  destruct (_finished h); [reflexivity|].
  destruct (_headers_written h); [reflexivity|].
  destruct (not_modified h); [reflexivity|].
  destruct (no_body_status _); [|reflexivity].
  destruct (_write_buffer h); reflexivity.
Qed.

Lemma quiet_for_each {A} (l : list A) (body : A -> M unit) :
  (forall x, quiet (body x)) -> quiet (for_each l body).
Proof.
  intros Hb. induction l as [|x l IH]; cbn; [apply quiet_ret|].
  apply quiet_bind; [apply Hb|]. intros _. exact IH.
Qed.

Lemma quiet_redirect url permanent : quiet (redirect url permanent).
Proof.
  apply quiet_bind; [apply quiet_gets|]. intros [|]; [apply quiet_raise|].
  apply quiet_bind; [apply quiet_set_status|]. intros _.
  apply quiet_bind; [apply quiet_set_header|]. intros _.
  apply quiet_finish.
Qed.

Lemma quiet_replay r : quiet (replay r).
Proof.
  apply quiet_bind; [apply quiet_set_status|]. intros _.
  apply quiet_bind; [apply quiet_for_each; intros [k v]; apply quiet_set_header|].
  intros _. apply quiet_bind; [apply quiet_write|]. intros _. apply quiet_finish.
Qed.

Lemma invoked_app (a b : list event) : invoked (a ++ b) = invoked a ++ invoked b.
Proof.
  induction a as [|e a IH]; [reflexivity|].
  destruct e; cbn; rewrite IH; reflexivity.
Qed.

(** The adapter calls the application once, on the environment it built,
    and afterwards at most joins the result. *)
Lemma handle_wsgi_trace (app : wsgi_app) (r : HTTPServerRequest) h :
  exists rest,
    trace (handle_wsgi_request_with_instance app r h).2
    = trace h ++ Invoke app (build_environ r) :: rest
    /\ (rest = [] \/ rest = [Join]).
Proof.
  unfold handle_wsgi_request_with_instance, mbind, M_bind, log, modify, raise, lift.
  cbn.
  destruct (ending (app (build_environ r))) as [res|e]; cbn; [|eauto].
  destruct (rd_status _) as [st|]; cbn; [|eauto].
  destruct (py_int _) as [code|]; cbn; [|eauto].
  destruct res as [b|items cl|]; cbn; [eauto| |eauto].
  exists [Join]. split; [|now right].
  destruct (join items); cbn; now rewrite <- app_assoc.
Qed.

Lemma handle_wsgi_invoked (app : wsgi_app) (r : HTTPServerRequest) h :
  invoked (trace (handle_wsgi_request_with_instance app r h).2)
  = invoked (trace h) ++ [(app, build_environ r)].
Proof.
  destruct (handle_wsgi_trace app r h) as (rest & -> & [-> | ->]);
    rewrite invoked_app; reflexivity.
Qed.

(** [_impl] on a registered name: lookup, adapter, replay. *)
Lemma _impl_registered h name path instance :
  tensorboard_manager h !! name = Some instance ->
  _impl name path h =
    let h1 := (log (GetItem name) (log (Contains name) (set_request_path path h).2).2).2 in
    match handle_wsgi_request_with_instance (tb_app instance)
            (with_path path (request h)) h1 with
    | (inr r, h2) => replay r h2
    | (inl e, h2) => (inl e, h2)
    end.
Proof.
  intros Hm. unfold _impl, mbind, M_bind, gets, log, modify, set_request_path.
  cbn. rewrite Hm. cbn. reflexivity.
Qed.

Lemma _impl_unregistered h name path :
  tensorboard_manager h !! name = None ->
  _impl name path h =
    (inl (HTTPError 404 None), (log (Contains name) (set_request_path path h).2).2).
Proof.
  intros Hm. unfold _impl, mbind, M_bind, gets, log, modify, set_request_path.
  cbn. rewrite Hm. reflexivity.
Qed.

Lemma get_authenticated h name path :
  current_user (request h) = true -> path <> [] ->
  get name path h = _impl name path h.
Proof.
  intros Hu Hp. unfold get, authenticated, mbind, M_bind, gets. cbn.
  rewrite Hu. unfold str_eqb. rewrite bool_decide_eq_false_2 by exact Hp.
  reflexivity.
Qed.

(** ** Routing *)

(** C1, as amended: an authenticated GET with a non-empty sub-path and a
    registered name invokes exactly the application registered under the
    name, once, on the environment built from the request with the
    sub-path as its path, and [PATH_INFO] is the sub-path when that is
    ASCII text without ['%']; for a name that is not
    registered the handler raises 404 and invokes nothing. *)
Theorem routing_correctness (h : RequestHandler) (name path : str) :
  current_user (request h) = true ->
  path <> [] ->
  match tensorboard_manager h !! name with
  | Some instance =>
    invoked (trace (get name path h).2)
    = invoked (trace h)
      ++ [(tb_app instance, build_environ (with_path path (request h)))]
    /\ (is_ascii path -> contains percent path = false ->
        PATH_INFO (build_environ (with_path path (request h))) = path)
  | None =>
    (get name path h).1 = inl (HTTPError 404 None)
    /\ invoked (trace (get name path h).2) = invoked (trace h)
  end.
Proof.
  intros Hu Hp. rewrite (get_authenticated _ _ _ Hu Hp).
  destruct (tensorboard_manager h !! name) as [instance|] eqn:Hm.
  - split.
    + rewrite (_impl_registered _ _ _ _ Hm). cbv zeta.
      set (h1 := (log (GetItem name) _).2).
      pose proof (handle_wsgi_invoked (tb_app instance)
                    (with_path path (request h)) h1) as Hi.
      destruct (handle_wsgi_request_with_instance _ _ h1) as [[e|r] h2];
        cbn [snd] in *.
      * rewrite Hi. subst h1. cbn. rewrite <- app_assoc, invoked_app.
        cbn. now rewrite app_nil_r.
      * rewrite (quiet_replay r h2), Hi. subst h1. cbn.
        rewrite <- app_assoc, invoked_app. cbn. now rewrite app_nil_r.
    + intros Ha Hc. apply build_environ_no_escape; cbn; [exact Ha|].
      now apply no_percent_no_escape.
  - rewrite (_impl_unregistered _ _ _ Hm). cbn. split; [reflexivity|].
    rewrite invoked_app. cbn. now rewrite app_nil_r.
Qed.

(** ** The header store *)

Lemma assoc_header_set_eq k v l : assoc k (header_set k v l) = Some v.
Proof.
  induction l as [|[k' v'] l IH]; cbn.
  - unfold str_eqb. now rewrite bool_decide_eq_true_2.
  - destruct (str_eqb k k') eqn:Hk; cbn; rewrite ?Hk; [|exact IH].
    unfold str_eqb. now rewrite bool_decide_eq_true_2.
Qed.


(** ** The redirect law *)

(** C3: an authenticated GET with an empty sub-path is answered by
    [redirect(uri, permanent=True)], where [uri] is the request path, a
    slash and, exactly when the query is not empty, ['?'] and the query;
    nothing is added to the trace, so no application is invoked; and on a
    response that is still open the status becomes 301 and the Location
    header the URI (in UTF-8, as [redirect] stores it). *)
Theorem redirect_law (h : RequestHandler) (name : str) :
  current_user (request h) = true ->
  let uri :=
    request_path (request h) ++ py "/" ++
    match request_query (request h) with
    | [] => []
    | q => py "?" ++ q
    end in
  let out := get name [] h in
  out = redirect uri true h
  /\ trace out.2 = trace h
  /\ (_headers_written h = false -> _finished h = false ->
      valid_header_value (utf8_encode uri) = true ->
      out.1 = inr tt
      /\ _status_code out.2 = 301%Z
      /\ headers_get (py "Location") (_headers out.2) = Some (utf8_encode uri)
      /\ _finished out.2 = true
      /\ _write_buffer out.2 = _write_buffer h).
Proof.
  intros Hu uri out.
  assert (Hout : out = redirect uri true h).
  { subst out uri. unfold get, authenticated, mbind, M_bind, gets.
    cbv beta iota. rewrite Hu. unfold str_eqb at 1.
    rewrite bool_decide_eq_true_2 by reflexivity. cbv beta iota.
    destruct (request_query (request h)) as [|q0 q].
    - rewrite app_nil_r. reflexivity.
    - rewrite <- app_assoc. reflexivity. }
  split; [exact Hout|]. split.
  - rewrite Hout. apply quiet_redirect.
  - intros Hw Hf Hv. rewrite Hout.
    unfold redirect, set_header, finish, not_modified, set_status, mbind,
      M_bind, gets, modify.
    cbn. rewrite Hw. cbn. rewrite Hv. cbn. rewrite Hf, Hw. cbn.
    repeat split. unfold headers_get. apply assoc_header_set_eq.
Qed.

(** ** The method restriction *)

(** C4: a POST with an empty sub-path raises [HTTPError(403)] and leaves
    the handler as it was: whatever the registry holds, it is not looked
    up, and nothing is invoked or written. *)
Theorem post_empty_forbidden (h : RequestHandler) (name : str) :
  request_method (request h) = py "POST" ->
  post name [] h = (inl (HTTPError 403 None), h).
Proof.
  intros Hm. unfold post, authenticated, mbind, M_bind, gets, raise. cbn.
  rewrite Hm. destruct (current_user (request h)); reflexivity.
Qed.

(** ** The XSRF override *)

(** C6: when the inherited check raises an [HTTPError]: a POST whose
    referer check passes is let through; a POST whose referer check fails
    raises 403 with a message that names the Referer header, or with the
    unknown-origin message when there is no Referer header; for any other
    method the inherited error is raised again as it was. *)
Theorem xsrf_override (h : RequestHandler) (code : Z) (message : option str) :
  super_check_xsrf_cookie (request h) = Some (HTTPError code message) ->
  let r := request h in
  (request_method r = py "POST" -> check_referer r = true ->
     check_xsrf_cookie h = (inr tt, h))
  /\ (request_method r = py "POST" -> check_referer r = false ->
       (forall referer,
          headers_get (py "Referer") (request_headers r) = Some referer ->
          referer <> [] ->
          check_xsrf_cookie h =
            (inl (HTTPError 403
                    (Some (py "Blocking Cross Origin request from "
                           ++ referer ++ py "."))), h))
       /\ (headers_get (py "Referer") (request_headers r) = None ->
           check_xsrf_cookie h =
             (inl (HTTPError 403
                     (Some (py "Blocking request from unknown origin"))), h)))
  /\ (request_method r <> py "POST" ->
       check_xsrf_cookie h = (inl (HTTPError code message), h)).
Proof.
  intros Hs r. subst r.
  unfold check_xsrf_cookie, mbind, M_bind, gets, raise. cbn. rewrite Hs.
  split; [|split].
  - intros Hm Hr. rewrite Hm, Hr. reflexivity.
  - intros Hm Hr. split.
    + intros referer Hg Hne. rewrite Hm, Hr, Hg. cbn.
      destruct referer; [congruence|reflexivity].
    + intros Hg. rewrite Hm, Hr, Hg. reflexivity.
  - intros Hm. unfold str_eqb. rewrite bool_decide_eq_false_2 by exact Hm.
    reflexivity.
Qed.

(** ** Response fidelity *)

Lemma join_bytes (chunks : list bytes) :
  join (List.map ItemBytes chunks) = inr (concat chunks).
Proof.
  induction chunks as [|b chunks IH]; cbn; [reflexivity|].
  rewrite IH. reflexivity.
Qed.






(** What the adapter returns when the application made at least one call
    to [start_response], returned, and the last status line parses. *)
Lemma handle_wsgi_returns (app : wsgi_app) (r : HTTPServerRequest) h
    pre c code result :
  calls (app (build_environ r)) = pre ++ [c] ->
  ending (app (build_environ r)) = Returns result ->
  py_int (first_token (sr_status c)) = Some code ->
  handle_wsgi_request_with_instance app r h =
    match result with
    | ResBytes b =>
      (inr {| status_code := code; headers := sr_headers c; body := b |},
       with_trace (trace h ++ [Invoke app (build_environ r)]) h)
    | ResIterable items _ =>
      match join items with
      | inr b =>
        (inr {| status_code := code; headers := sr_headers c; body := b |},
         with_trace (trace h ++ [Invoke app (build_environ r); Join]) h)
      | inl e =>
        (inl e, with_trace (trace h ++ [Invoke app (build_environ r); Join]) h)
      end
    | ResNotIterable =>
      (inl TypeError, with_trace (trace h ++ [Invoke app (build_environ r)]) h)
    end.
Proof.
  intros Hc He Hi.
  unfold handle_wsgi_request_with_instance, mbind, M_bind, log, modify, raise,
    lift, mret, M_ret.
  rewrite Hc, He, fold_left_app. cbn [fold_left start_response rd_status rd_headers].
  rewrite Hi.
  destruct result as [b|items cl|]; [reflexivity| |reflexivity].
  cbn [trace with_trace]. rewrite <- app_assoc. cbn [List.app].
  destruct (join items); reflexivity.
Qed.



(** ** Failures *)

(** C8: when the application returns without a call to [start_response],
    reading the status raises (the [AttributeError] of [None.split]); the
    handler lets it through, tornado answers 500, and the response under
    construction has not been touched: no status, header or body was set
    and nothing was flushed. *)
Theorem no_status_set (h : RequestHandler) (name path : str)
    (instance : Instance) (result : wsgi_result) :
  tensorboard_manager h !! name = Some instance ->
  calls (tb_app instance (build_environ (with_path path (request h)))) = [] ->
  ending (tb_app instance (build_environ (with_path path (request h))))
  = Returns result ->
  let out := _impl name path h in
  out.1 = inl AttributeError
  /\ status_of_exception AttributeError = 500%Z
  /\ _status_code out.2 = _status_code h
  /\ _headers out.2 = _headers h
  /\ _write_buffer out.2 = _write_buffer h
  /\ _finished out.2 = _finished h
  /\ _headers_written out.2 = _headers_written h.
Proof.
  intros Hm Hc He out. subst out.
  rewrite (_impl_registered _ _ _ _ Hm). cbv zeta.
  unfold handle_wsgi_request_with_instance, mbind, M_bind, log, modify, raise.
  rewrite Hc, He. cbn. repeat split.
Qed.

Lemma set_header_cases k v h :
  set_header k v h = (inl ValueError, h)
  \/ set_header k v h
     = (inr tt, with_headers (header_set (_normalize_header k) v (_headers h)) h).
Proof.
  unfold set_header. destruct (valid_header_value v); [now right|now left].
Qed.

Lemma for_each_set_header_body (hs : list (str * str)) h :
  _write_buffer (for_each hs (fun '(k, v) => set_header k v) h).2
  = _write_buffer h
  /\ _finished (for_each hs (fun '(k, v) => set_header k v) h).2 = _finished h.
Proof.
  revert h. induction hs as [|[k v] hs IH]; intros h; [now split|].
  cbn [for_each]. unfold mbind, M_bind.
  destruct (set_header_cases k v h) as [-> | ->]; [now split|].
  destruct (IH (with_headers (header_set (_normalize_header k) v (_headers h)) h))
    as [Hb Hf].
  now rewrite Hb, Hf.
Qed.

Lemma for_each_set_header_rest (hs : list (str * str)) h :
  let out := for_each hs (fun '(k, v) => set_header k v) h in
  flushed out.2 = flushed h
  /\ _status_code out.2 = _status_code h
  /\ (forall e, out.1 = inl e -> e = ValueError).
Proof.
  revert h. induction hs as [|[k v] hs IH]; intros h.
  - repeat split. discriminate.
  - cbn [for_each]. unfold mbind, M_bind.
    destruct (set_header_cases k v h) as [-> | ->].
    + repeat split. intros e He. now injection He as <-.
    + apply (IH (with_headers (header_set (_normalize_header k) v (_headers h)) h)).
Qed.



Lemma adapter_state (app : wsgi_app) (r : HTTPServerRequest)
    (h : RequestHandler) :
  (handle_wsgi_request_with_instance app r h).2
  = with_trace (trace (handle_wsgi_request_with_instance app r h).2) h.
Proof.
  unfold handle_wsgi_request_with_instance, mbind, M_bind, log, modify, raise,
    lift, mret, M_ret. cbn.
  destruct (ending _) as [res|e]; cbn; [|reflexivity].
  destruct (rd_status _) as [st|]; cbn; [|reflexivity].
  destruct (py_int _) as [code|]; cbn; [|reflexivity].
  destruct res as [b|items cl|]; cbn; [reflexivity| |reflexivity].
  destruct (join items); reflexivity.
Qed.

Lemma join_error (items : list item) x :
  join items = inl x -> x = TypeError.
Proof.
  revert x. induction items as [|[b|] items IH]; cbn; intros x;
    [discriminate| |intros Hx; now injection Hx as <-].
  destruct (join items); [|discriminate].
  intros Hx. injection Hx as <-. now apply IH.
Qed.

Lemma handle_wsgi_error (app : wsgi_app) (r : HTTPServerRequest) h e :
  (handle_wsgi_request_with_instance app r h).1 = inl e ->
  ending (app (build_environ r)) = Raises e
  \/ e = AttributeError \/ e = ValueError \/ e = TypeError.
Proof.
  unfold handle_wsgi_request_with_instance, mbind, M_bind, log, modify, raise,
    lift, mret, M_ret. cbn.
  destruct (ending _) as [res|e']; cbn;
    [|intros He; injection He as <-; now left].
  destruct (rd_status _) as [st|]; cbn;
    [|intros He; injection He as <-; right; now left].
  destruct (py_int _) as [code|]; cbn;
    [|intros He; injection He as <-; right; right; now left].
  destruct res as [b|items cl|]; cbn;
    [discriminate| |intros He; injection He as <-; right; right; now right].
  destruct (join items) as [x|b] eqn:Ej; cbn; [|discriminate].
  intros He. injection He as <-. right. right. right.
  exact (join_error _ _ Ej).
Qed.


(** ** The body and the calls to [start_response] *)

(** C9, as amended: when the application has returned (and the status
    parses), a [bytes] result is the body as it is, and any other result
    is iterated and its chunks concatenated in order; the adapter does
    nothing else to the result, so that no [close] is called whether or
    not the result has one. *)
Theorem body_normalization (app : wsgi_app) (r : HTTPServerRequest)
    (h : RequestHandler) (pre : list start_response_call)
    (c : start_response_call) (code : Z) :
  calls (app (build_environ r)) = pre ++ [c] ->
  py_int (first_token (sr_status c)) = Some code ->
  (forall b,
     ending (app (build_environ r)) = Returns (ResBytes b) ->
     handle_wsgi_request_with_instance app r h
     = (inr {| status_code := code; headers := sr_headers c; body := b |},
        with_trace (trace h ++ [Invoke app (build_environ r)]) h))
  /\ (forall chunks has_close,
       ending (app (build_environ r))
       = Returns (ResIterable (List.map ItemBytes chunks) has_close) ->
       handle_wsgi_request_with_instance app r h
       = (inr {| status_code := code; headers := sr_headers c;
                 body := concat chunks |},
          with_trace (trace h ++ [Invoke app (build_environ r); Join]) h)).
Proof.
  intros Hc Hi. split.
  - intros b He. now rewrite (handle_wsgi_returns _ _ _ _ _ _ _ Hc He Hi).
  - intros chunks cl He.
    rewrite (handle_wsgi_returns _ _ _ _ _ _ _ Hc He Hi), join_bytes.
    reflexivity.
Qed.

(** C10, as amended: when the application calls [start_response] several
    times before it returns, with or without [exc_info], every call
    replaces the stored status and headers, so that what is captured is
    the arguments of the last of these calls; the earlier calls, and the
    calls made later while the result is iterated, leave no mark on the
    outcome, which is the outcome for the same application making that
    one call only; and with a status that parses and a body of [bytes] or
    of chunks the adapter returns, with the code and the headers of that
    call. *)
Theorem start_response_last_call (app : wsgi_app) (r : HTTPServerRequest)
    (h : RequestHandler) (pre : list start_response_call)
    (c : start_response_call) :
  calls (app (build_environ r)) = pre ++ [c] ->
  (forall rd,
     fold_left start_response (calls (app (build_environ r))) rd
     = {| rd_status := Some (sr_status c); rd_headers := sr_headers c |})
  /\ (handle_wsgi_request_with_instance app r h).1
     = (handle_wsgi_request_with_instance
          (fun e => {| calls := [c]; late_calls := [];
                       ending := ending (app e) |}) r h).1
  /\ (forall code b,
       py_int (first_token (sr_status c)) = Some code ->
       ending (app (build_environ r)) = Returns (ResBytes b) ->
       (handle_wsgi_request_with_instance app r h).1
       = inr {| status_code := code; headers := sr_headers c; body := b |})
  /\ (forall code chunks has_close,
       py_int (first_token (sr_status c)) = Some code ->
       ending (app (build_environ r))
       = Returns (ResIterable (List.map ItemBytes chunks) has_close) ->
       (handle_wsgi_request_with_instance app r h).1
       = inr {| status_code := code; headers := sr_headers c;
                body := concat chunks |}).
Proof.
  intros Hc. split; [|split; [|split]].
  - intros rd. rewrite Hc, fold_left_app. reflexivity.
  - unfold handle_wsgi_request_with_instance, mbind, M_bind, log, modify, raise,
      lift, mret, M_ret.
    rewrite Hc, fold_left_app.
    cbn [fold_left start_response rd_status rd_headers calls ending].
    destruct (ending _) as [res|e]; [|reflexivity].
    destruct (py_int _); [|reflexivity].
    destruct res as [b|items cl|]; [reflexivity| |reflexivity].
    cbn. destruct (join items); reflexivity.
  - intros code b Hi He.
    now rewrite (handle_wsgi_returns _ _ _ _ _ _ _ Hc He Hi).
  - intros code chunks cl Hi He.
    now rewrite (handle_wsgi_returns _ _ _ _ _ _ _ Hc He Hi), join_bytes.
Qed.

(** ** Path decoding *)

Lemma replay_error_500 (r : response) h e :
  (replay r h).1 = inl e -> status_of_exception e = 500%Z.
Proof.
  unfold replay, mbind, M_bind, set_status, modify.
  destruct (for_each_set_header_rest (headers r) (with_status (status_code r) h))
    as (_ & _ & He).
  cbv zeta in He.
  destruct (for_each _ _ _) as [[e'|[]] h']; cbn [fst snd] in *.
  - intros Heq. injection Heq as <-. now rewrite (He e' eq_refl).
  - unfold write, mbind, M_bind, gets, modify. cbn.
    destruct (_finished h'); cbn;
      [intros Heq; injection Heq as <-; reflexivity|].
    unfold finish. cbn.
    destruct (_finished h'); [intros Heq; injection Heq as <-; reflexivity|].
    destruct (_headers_written h'); [discriminate|].
    destruct (not_modified _); [discriminate|].
    destruct (no_body_status _); [|discriminate].
    destruct (_write_buffer h' ++ [body r]); [discriminate|].
    intros Heq. injection Heq as <-. reflexivity.
Qed.

(** C7, as amended: a malformed percent-escape raises no condition of its
    own and gives no 400: whatever the path, [_impl] goes on to invoke the
    registered application on the environment built from it; a 400 can
    only be the application's own, raised by it; and for an ASCII path
    none of whose ['%'] is followed by two hexadecimal digits
    [PATH_INFO] is the path as it came. *)
Theorem malformed_escapes_pass (h : RequestHandler) (name path : str) :
  (forall instance,
     tensorboard_manager h !! name = Some instance ->
     invoked (trace (_impl name path h).2)
     = invoked (trace h)
       ++ [(tb_app instance, build_environ (with_path path (request h)))])
  /\ (forall e,
       (_impl name path h).1 = inl e ->
       status_of_exception e = 400%Z ->
       exists instance,
         tensorboard_manager h !! name = Some instance
         /\ ending (tb_app instance (build_environ (with_path path (request h))))
            = Raises e)
  /\ (is_ascii path -> no_escape path = true ->
      PATH_INFO (build_environ (with_path path (request h))) = path).
Proof.
  split; [|split].
  - intros instance Hm. rewrite (_impl_registered _ _ _ _ Hm). cbv zeta.
    set (h1 := (log (GetItem name) _).2).
    pose proof (handle_wsgi_invoked (tb_app instance)
                  (with_path path (request h)) h1) as Hi.
    assert (H1 : invoked (trace h1) = invoked (trace h)).
    { subst h1. cbn. rewrite !invoked_app. cbn. now rewrite !app_nil_r. }
    destruct (handle_wsgi_request_with_instance _ _ h1) as [[e|r] h2];
      cbn [snd] in *.
    + now rewrite Hi, H1.
    + now rewrite (quiet_replay r h2), Hi, H1.
  - intros e He H400.
    destruct (tensorboard_manager h !! name) as [instance|] eqn:Hm.
    2:{ rewrite (_impl_unregistered _ _ _ Hm) in He. cbn in He.
        injection He as <-. discriminate. }
    exists instance. split; [reflexivity|].
    rewrite (_impl_registered _ _ _ _ Hm) in He. cbv zeta in He.
    set (h1 := (log (GetItem name) _).2) in He.
    pose proof (handle_wsgi_error (tb_app instance)
                  (with_path path (request h)) h1) as Herr.
    destruct (handle_wsgi_request_with_instance _ _ h1) as [[e'|r] h2];
      cbn [fst snd] in *.
    + injection He as <-.
      destruct (Herr e' eq_refl) as [Hr | [-> | [-> | ->]]];
        [exact Hr|discriminate..].
    + apply replay_error_500 in He. rewrite He in H400. discriminate.
  - intros Ha Hn. now apply build_environ_no_escape.
Qed.

End Properties.

(** * The scenario and the examples *)

(** The scenario of the specification: [GET /tensorboard_pro/1/data] is
    answered 200 with the header and the body of [app_echo],
    [GET /tensorboard_pro/2/data] with 404, and a POST with an empty
    sub-path with 403. *)
Example scenario_echo :
  let out := get (H := server) (py "1") (py "/data")
               (arriving "GET" "/tensorboard_pro/1/data" app_echo) in
  out.1 = inr tt
  /\ _status_code out.2 = 200%Z
  /\ _headers out.2 = [(py "Content-Type", py "text/plain")]
  /\ _write_buffer out.2 = [py "hello"]
  /\ _finished out.2 = true
  /\ (get (H := server) (py "2") (py "/data")
        (arriving "GET" "/tensorboard_pro/2/data" app_echo)).1
     = inl (HTTPError 404 None)
  /\ (post (H := server) (py "1") []
        (arriving "POST" "/tensorboard_pro/1" app_echo)).1
     = inl (HTTPError 403 None).
Proof. vm_compute. repeat split. Qed.

(** C1, counterexample: with the sub-path [/a%20b] the application
    registered as ["1"] is called with [PATH_INFO] [/a b], which is not the
    sub-path; and a GET for the unregistered name ["2"] with an empty
    sub-path is answered by a 301 redirect, not by 404. *)
Lemma routing_counterexample :
  path_infos
    (trace (get (H := server) (py "1") (py "/a%20b")
              (arriving "GET" "/tensorboard_pro/1/a%20b" app_echo)).2)
  = [py "/a b"]
  /\ py "/a b" <> py "/a%20b"
  /\ (let out := get (H := server) (py "2") []
                   (arriving "GET" "/tensorboard_pro/2" app_echo) in
      out.1 = inr tt /\ _status_code out.2 = 301%Z).
Proof. vm_compute. repeat split. discriminate. Qed.

Lemma routing_correctness_witness :
  match sample_manager !! py "1" with
  | Some instance =>
    invoked (trace (get (H := server) (py "1") (py "/data")
                      (arriving "GET" "/tensorboard_pro/1/data" app_echo)).2)
    = invoked (trace (arriving "GET" "/tensorboard_pro/1/data" app_echo))
      ++ [(tb_app instance,
           build_environ
             (with_path (py "/data")
                (request (arriving "GET" "/tensorboard_pro/1/data" app_echo))))]
    /\ PATH_INFO
         (build_environ
            (with_path (py "/data")
               (request (arriving "GET" "/tensorboard_pro/1/data" app_echo))))
       = py "/data"
  | None => False
  end.
Proof.
  assert (Hp : py "/data" <> []) by discriminate.
  assert (Ha : is_ascii (py "/data")) by ascii_text.
  destruct (routing_correctness (H := server)
              (arriving "GET" "/tensorboard_pro/1/data" app_echo)
              (py "1") (py "/data") eq_refl Hp) as [Hi Hpath].
  exact (conj Hi (Hpath Ha eq_refl)).
Defined.



Lemma redirect_law_witness :
  let h := prepare (sample_request "GET" "/tensorboard_pro/1" "x=1" [])
             sample_manager [] in
  let out := get (H := server) (py "1") [] h in
  out.1 = inr tt
  /\ _status_code out.2 = 301%Z
  /\ headers_get (H := server) (py "Location") (_headers out.2)
     = Some (py "/tensorboard_pro/1/?x=1")
  /\ trace out.2 = [].
Proof.
  intros h out.
  destruct (redirect_law (H := server) h (py "1") eq_refl) as (_ & Ht & Hr).
  destruct (Hr eq_refl eq_refl eq_refl) as (H1 & H2 & H3 & _).
  repeat split; assumption.
Defined.

Lemma post_empty_forbidden_witness :
  post (H := server) (py "1") [] (arriving "POST" "/tensorboard_pro/1" app_echo)
  = (inl (HTTPError 403 None), arriving "POST" "/tensorboard_pro/1" app_echo).
Proof.
  exact (post_empty_forbidden (H := server)
           (arriving "POST" "/tensorboard_pro/1" app_echo) (py "1") eq_refl).
Defined.

(** The three requests of P6, none with a token: a POST with a referer on
    the serving origin passes, one with a referer elsewhere is refused
    with a message that names it, one without referer is refused as of
    unknown origin. *)
Lemma xsrf_override_witness :
  let post_with hs :=
    prepare {| request_method := py "POST";
               request_path := py "/tensorboard_pro/1/data";
               request_query := []; request_headers := hs |}
      sample_manager [] in
  check_xsrf_cookie (H := server)
    (post_with [(py "Referer", py "http://localhost:8888/lab")])
  = (inr tt, post_with [(py "Referer", py "http://localhost:8888/lab")])
  /\ check_xsrf_cookie (H := server)
       (post_with [(py "Referer", py "http://evil.example/")])
     = (inl (HTTPError 403
               (Some (py "Blocking Cross Origin request from http://evil.example/."))),
        post_with [(py "Referer", py "http://evil.example/")])
  /\ check_xsrf_cookie (H := server) (post_with [])
     = (inl (HTTPError 403 (Some (py "Blocking request from unknown origin"))),
        post_with []).
Proof.
  intros post_with.
  pose proof (xsrf_override (H := server)
                (post_with [(py "Referer", py "http://localhost:8888/lab")])
                403%Z _ eq_refl) as (Hpass & _ & _).
  pose proof (xsrf_override (H := server)
                (post_with [(py "Referer", py "http://evil.example/")])
                403%Z _ eq_refl) as (_ & Hfail & _).
  pose proof (xsrf_override (H := server) (post_with [])
                403%Z _ eq_refl) as (_ & Hnone & _).
  split; [exact (Hpass eq_refl eq_refl)|]. split.
  - destruct (Hfail eq_refl eq_refl) as [Hnamed _].
    assert (Hne : py "http://evil.example/" <> []) by discriminate.
    exact (Hnamed (py "http://evil.example/") eq_refl Hne).
  - destruct (Hnone eq_refl eq_refl) as [_ Hunknown].
    exact (Hunknown eq_refl).
Defined.

(** C5: the request path [/a%2520b], which decoded once is [/a%20b],
    reaches the application as [/a b]: the container has decoded
    [PATH_INFO] already ([WSGIContainer.environ] applies [url_unescape])
    when the adapter applies [unquote] to it.  So it is for the font
    handler, whose request path is the one of the URL, and for [_impl],
    whose request path is the sub-path.  The example of the
    specification, [a%20b], arrives as [a b]. *)
Theorem path_info_decoded_twice :
  PATH_INFO (build_environ (sample_request "GET" "/a%2520b" "" [])) = py "/a b"
  /\ PATH_INFO (environ (sample_request "GET" "/a%2520b" "" [])) = py "/a%20b"
  /\ py "/a b" <> py "/a%20b"
  /\ path_infos
       (trace (TbFontHandler_get (H := server)
                 (arriving "GET" "/font-roboto/a%2520b" app_echo)).2)
     = [py "/font-roboto/a b"]
  /\ path_infos
       (trace (get (H := server) (py "1") (py "/a%2520b")
                 (arriving "GET" "/tensorboard_pro/1/a%252520b" app_echo)).2)
     = [py "/a b"]
  /\ PATH_INFO (build_environ (sample_request "GET" "a%20b" "" [])) = py "a b".
Proof. vm_compute. repeat split. discriminate. Qed.

(** C7, counterexample: the path [/a%zz] has a malformed escape; the
    environment is built, the application is called with [/a%zz], and the
    answer is 200, not 400. *)
Lemma malformed_path_counterexample :
  let out := get (H := server) (py "1") (py "/a%zz")
               (arriving "GET" "/tensorboard_pro/1/a%zz" app_echo) in
  out.1 = inr tt
  /\ _status_code out.2 = 200%Z
  /\ path_infos (trace out.2) = [py "/a%zz"].
Proof. vm_compute. repeat split. Qed.

Lemma malformed_escapes_pass_witness :
  let h := arriving "GET" "/tensorboard_pro/1/a%zz" app_echo in
  invoked (trace (_impl (H := server) (py "1") (py "/a%zz") h).2)
  = invoked (trace h)
    ++ [(app_echo, build_environ (with_path (py "/a%zz") (request h)))]
  /\ PATH_INFO (build_environ (with_path (py "/a%zz") (request h)))
     = py "/a%zz".
Proof.
  intros h.
  assert (Ha : is_ascii (py "/a%zz")) by ascii_text.
  destruct (malformed_escapes_pass (H := server) h (py "1") (py "/a%zz"))
    as (Hi & _ & Hp).
  exact (conj (Hi {| tb_app := app_echo |} eq_refl) (Hp Ha eq_refl)).
Defined.

Lemma no_status_set_witness :
  let h := arriving "GET" "/tensorboard_pro/1/data" app_silent in
  let out := _impl (H := server) (py "1") (py "/data") h in
  out.1 = inl AttributeError
  /\ status_of_exception AttributeError = 500%Z
  /\ _status_code out.2 = _status_code h
  /\ _headers out.2 = _headers h
  /\ _write_buffer out.2 = _write_buffer h
  /\ _finished out.2 = _finished h
  /\ _headers_written out.2 = _headers_written h.
Proof.
  exact (no_status_set (H := server)
           (arriving "GET" "/tensorboard_pro/1/data" app_silent)
           (py "1") (py "/data") {| tb_app := app_silent |}
           (ResIterable [ItemBytes (py "hi")] false) eq_refl eq_refl eq_refl).
Defined.

(** C9, counterexample: the result of [app_closing] has a [close] method;
    the adapter calls the application and joins the chunks, and that is
    all: [close] is not called. *)
Lemma close_hook_counterexample :
  let r := sample_request "GET" "/data" "" [] in
  let out := handle_wsgi_request_with_instance (H := server) app_closing r
               (prepare r sample_manager []) in
  ending (app_closing (build_environ r))
  = Returns (ResIterable [ItemBytes (py "he"); ItemBytes (py "llo")] true)
  /\ out.1 = inr {| status_code := 200; headers := []; body := py "hello" |}
  /\ trace out.2 = [Invoke app_closing (build_environ r); Join]
  /\ ~ In Close (trace out.2).
Proof.
  vm_compute. repeat split. intros [Hc|[Hc|[]]]; discriminate.
Qed.

Lemma body_normalization_witness :
  let r := sample_request "GET" "/data" "" [] in
  let h := prepare r sample_manager [] in
  handle_wsgi_request_with_instance (H := server) app_closing r h
  = (inr {| status_code := 200; headers := [];
            body := concat [py "he"; py "llo"] |},
     with_trace (trace h ++ [Invoke app_closing (build_environ r); Join]) h)
  /\ handle_wsgi_request_with_instance (H := server) app_twice r h
     = (inr {| status_code := 500; headers := [(py "X-Error", py "1")];
               body := py "failed" |},
        with_trace (trace h ++ [Invoke app_twice (build_environ r)]) h).
Proof.
  intros r h. split.
  - destruct (body_normalization (H := server) app_closing r h []
                {| sr_status := py "200 OK"; sr_headers := [];
                   sr_exc_info := None |} 200%Z eq_refl eq_refl) as [_ Hi].
    exact (Hi [py "he"; py "llo"] true eq_refl).
  - destruct (body_normalization (H := server) app_twice r h
                [ {| sr_status := py "200 OK";
                     sr_headers := [(py "Content-Type", py "text/plain")];
                     sr_exc_info := None |} ]
                {| sr_status := py "500 Internal Server Error";
                   sr_headers := [(py "X-Error", py "1")];
                   sr_exc_info := Some (Exception (py "boom")) |}
                500%Z eq_refl eq_refl) as [Hb _].
    exact (Hb (py "failed") eq_refl).
Defined.

(** C10, counterexample: [app_late] makes its last call to
    [start_response], with status 500, while its result is iterated: what
    is captured is the first call, status 200 and its header.  And
    [app_generator], which makes its two calls when iterated, gets an
    error: no status is there when it is read. *)
Lemma late_call_counterexample :
  let r := sample_request "GET" "/data" "" [] in
  let h := prepare r sample_manager [] in
  List.last (calls (app_late (build_environ r))
             ++ late_calls (app_late (build_environ r)))
    {| sr_status := []; sr_headers := []; sr_exc_info := None |}
  = {| sr_status := py "500 Internal Server Error";
       sr_headers := [(py "X-Error", py "1")];
       sr_exc_info := Some (Exception (py "boom")) |}
  /\ (handle_wsgi_request_with_instance (H := server) app_late r h).1
     = inr {| status_code := 200;
              headers := [(py "Content-Type", py "text/plain")];
              body := py "partial" |}
  /\ (handle_wsgi_request_with_instance (H := server) app_generator r h).1
     = inl AttributeError.
Proof. vm_compute. repeat split. Qed.

Lemma start_response_last_call_witness :
  let r := sample_request "GET" "/data" "" [] in
  let h := prepare r sample_manager [] in
  (handle_wsgi_request_with_instance (H := server) app_twice r h).1
  = inr {| status_code := 500; headers := [(py "X-Error", py "1")];
           body := py "failed" |}.
Proof.
  intros r h.
  destruct (start_response_last_call (H := server) app_twice r h
              [ {| sr_status := py "200 OK";
                   sr_headers := [(py "Content-Type", py "text/plain")];
                   sr_exc_info := None |} ]
              {| sr_status := py "500 Internal Server Error";
                 sr_headers := [(py "X-Error", py "1")];
                 sr_exc_info := Some (Exception (py "boom")) |}
              eq_refl) as (_ & _ & Hr & _).
  exact (Hr 500%Z (py "failed") eq_refl eq_refl).
Defined.

(** * Further properties of the module *)

Lemma preserves_ret {A X} (f : RequestHandler -> X) (x : A) :
  preserves f (mret x).
Proof. intros h. reflexivity. Qed.

Lemma preserves_raise {A X} (f : RequestHandler -> X) (e : exn) :
  preserves f (@raise A e).
Proof. intros h. reflexivity. Qed.

Lemma preserves_gets {A X} (f : RequestHandler -> X) (g : RequestHandler -> A) :
  preserves f (gets g).
Proof. intros h. reflexivity. Qed.

Lemma preserves_lift {A X} (f : RequestHandler -> X) (r : exn + A) :
  preserves f (lift r).
Proof. intros h. reflexivity. Qed.

Lemma preserves_bind {A B X} (f : RequestHandler -> X) (m : M A) (k : A -> M B) :
  preserves f m -> (forall x, preserves f (k x)) -> preserves f (m ≫= k).
Proof.
  intros Hm Hk h. unfold mbind, M_bind.
  specialize (Hm h). destruct (m h) as [[e|x] h']; cbn in *; [exact Hm|].
  rewrite (Hk x h'). exact Hm.
Qed.

Lemma preserves_for_each {A X} (f : RequestHandler -> X) (l : list A)
    (body : A -> M unit) :
  (forall x, preserves f (body x)) -> preserves f (for_each l body).
Proof.
  intros Hb. induction l as [|x l IH]; cbn; [apply preserves_ret|].
  apply preserves_bind; [apply Hb|]. intros _. exact IH.
Qed.

Lemma preserves_finish `{Host} {X} (f : RequestHandler -> X) :
  (forall c h, f (with_status c h) = f h) ->
  (forall hs h, f (with_headers hs h) = f h) ->
  (forall b h, f (with_flushed b h) = f h) ->
  (forall h, f (finished h) = f h) ->
  preserves f finish.
Proof.
  intros Hs Hh Hb Hf h. unfold finish.
  destruct (_finished h); [reflexivity|].
  destruct (_headers_written h); [cbn; now rewrite Hf, Hb|].
  destruct (not_modified h); [cbn; now rewrite Hf, Hb, Hh, Hs|].
  destruct (no_body_status _); [|cbn; now rewrite Hf, Hb].
  destruct (_write_buffer h); [cbn; now rewrite Hf, Hb, Hh|reflexivity].
Qed.

(** Takes a goal [preserves f m] apart along the structure of [m]. *)
Ltac preserve :=
  repeat first
    [ apply preserves_ret
    | apply preserves_finish; intros; reflexivity
    | apply preserves_raise
    | apply preserves_gets
    | apply preserves_lift
    | apply preserves_bind; [|intros ?]
    | apply preserves_for_each; intros [? ?]
    | match goal with
      | |- preserves _ (if ?b then _ else _) => destruct b
      | |- preserves _ (match ?x with _ => _ end) => destruct x
      end
    | (intros ?; reflexivity) ].

Section Further.
Context `{Host}.

(** ** The adapter *)

(** An exception raised by the application passes through [_impl] as it
    is, whatever the application stored before, and nothing of the
    response has been set. *)
Theorem backend_exception_propagates (h : RequestHandler) (name path : str)
    (instance : Instance) (e : exn) :
  tensorboard_manager h !! name = Some instance ->
  ending (tb_app instance (build_environ (with_path path (request h))))
  = Raises e ->
  let out := _impl name path h in
  out.1 = inl e
  /\ invoked (trace out.2)
     = invoked (trace h)
       ++ [(tb_app instance, build_environ (with_path path (request h)))]
  /\ _status_code out.2 = _status_code h
  /\ _headers out.2 = _headers h
  /\ _write_buffer out.2 = _write_buffer h
  /\ _finished out.2 = _finished h.
Proof.
  intros Hm He out. subst out.
  rewrite (_impl_registered _ _ _ _ Hm). cbv zeta.
  unfold handle_wsgi_request_with_instance, mbind, M_bind, log, modify, raise.
  rewrite He. cbn. repeat split.
  rewrite !invoked_app. cbn. now rewrite !app_nil_r.
Qed.

(** When the leading token of the status line is not a number the adapter
    raises [ValueError], and it does so before it looks at the body: the
    result is not iterated. *)
Theorem unparsable_status (app : wsgi_app) (r : HTTPServerRequest)
    (h : RequestHandler) (pre : list start_response_call)
    (c : start_response_call) (result : wsgi_result) :
  calls (app (build_environ r)) = pre ++ [c] ->
  ending (app (build_environ r)) = Returns result ->
  py_int (first_token (sr_status c)) = None ->
  (handle_wsgi_request_with_instance app r h).1 = inl ValueError
  /\ trace (handle_wsgi_request_with_instance app r h).2
     = trace h ++ [Invoke app (build_environ r)].
Proof.
  intros Hc He Hi.
  unfold handle_wsgi_request_with_instance, mbind, M_bind, log, modify, raise.
  rewrite Hc, He, fold_left_app. cbn [fold_left start_response rd_status].
  rewrite Hi. split; reflexivity.
Qed.

Lemma split_token sep tok rest :
  contains sep tok = false ->
  split sep (tok ++ sep :: rest) = tok :: split sep rest.
Proof.
  unfold contains. induction tok as [|c tok IH]; cbn.
  - intros _. now rewrite N.eqb_refl.
  - intros Hc. apply orb_false_iff in Hc as [Hc Ht].
    rewrite N.eqb_sym in Hc. rewrite Hc, (IH Ht). reflexivity.
Qed.

(** Only the text before the first space of the status line counts: the
    reason phrase does not reach the response. *)
Theorem reason_phrase_dropped (app : wsgi_app) (r : HTTPServerRequest)
    (h : RequestHandler) (pre : list start_response_call)
    (c : start_response_call) (tok reason : str) (code : Z) (b : bytes) :
  calls (app (build_environ r)) = pre ++ [c] ->
  sr_status c = tok ++ space :: reason ->
  contains space tok = false ->
  py_int tok = Some code ->
  ending (app (build_environ r)) = Returns (ResBytes b) ->
  (handle_wsgi_request_with_instance app r h).1
  = inr {| status_code := code; headers := sr_headers c; body := b |}.
Proof.
  intros Hc Hs Ht Hi He.
  assert (Hf : py_int (first_token (sr_status c)) = Some code).
  { unfold first_token. rewrite Hs, (split_token _ _ _ Ht). exact Hi. }
  now rewrite (handle_wsgi_returns _ _ _ _ _ _ _ Hc He Hf).
Qed.

Lemma fold_start_response_stored (l1 l2 : list start_response_call) rd :
  List.map stored l1 = List.map stored l2 ->
  fold_left start_response l1 rd = fold_left start_response l2 rd.
Proof.
  revert l2 rd. induction l1 as [|c1 l1 IH]; intros [|c2 l2] rd Hs;
    try discriminate; [reflexivity|].
  cbn in Hs. injection Hs as Hst Hhd Hl. cbn [fold_left].
  replace (start_response rd c1) with (start_response rd c2)
    by (unfold start_response; now rewrite Hst, Hhd).
  now apply IH.
Qed.

(** The [exc_info] argument of [start_response] is ignored: two
    applications that pass the same statuses and headers and end the same
    way get the same answer from the adapter. *)
Theorem exc_info_ignored (app1 app2 : wsgi_app) (r : HTTPServerRequest)
    (h : RequestHandler) :
  List.map stored (calls (app1 (build_environ r)))
  = List.map stored (calls (app2 (build_environ r))) ->
  ending (app1 (build_environ r)) = ending (app2 (build_environ r)) ->
  (handle_wsgi_request_with_instance app1 r h).1
  = (handle_wsgi_request_with_instance app2 r h).1.
Proof.
  intros Hc He.
  unfold handle_wsgi_request_with_instance, mbind, M_bind, log, modify, raise,
    lift, mret, M_ret.
  cbv beta zeta. rewrite (fold_start_response_stored _ _ _ Hc), He.
  clear Hc He.
  destruct (ending _) as [res|e]; [|reflexivity].
  destruct (rd_status _); [|reflexivity].
  destruct (py_int _); [|reflexivity].
  destruct res as [b|items cl|]; [reflexivity| |reflexivity].
  cbn. destruct (join items); reflexivity.
Qed.

(** ** The handlers *)

Lemma post_authenticated h name path :
  current_user (request h) = true -> path <> [] ->
  post name path h = _impl name path h.
Proof.
  intros Hu Hp. unfold post, authenticated, mbind, M_bind, gets. cbn.
  rewrite Hu. unfold str_eqb. rewrite bool_decide_eq_false_2 by exact Hp.
  reflexivity.
Qed.

(** For a logged-in user and a sub-path that is not empty, POST and GET
    are handled the same way. *)
Theorem post_is_get (h : RequestHandler) (name path : str) :
  current_user (request h) = true ->
  path <> [] ->
  post name path h = get name path h.
Proof.
  intros Hu Hp.
  now rewrite (post_authenticated _ _ _ Hu Hp), (get_authenticated _ _ _ Hu Hp).
Qed.

Lemma authenticated_anonymous (m : M unit) h :
  current_user (request h) = false ->
  authenticated m h
  = if str_eqb (request_method (request h)) (py "GET")
       || str_eqb (request_method (request h)) (py "HEAD")
    then redirect (login_redirect_url (request h)) false h
    else (inl (HTTPError 403 None), h).
Proof.
  intros Hu. unfold authenticated, mbind, M_bind, gets. cbn. rewrite Hu.
  destruct (_ || _); reflexivity.
Qed.

Lemma quiet_authenticated (m : M unit) : quiet m -> quiet (authenticated m).
Proof.
  intros Hm. unfold authenticated.
  apply quiet_bind; [apply quiet_gets|]. intros r.
  destruct (current_user r); [exact Hm|].
  destruct (_ || _); [apply quiet_redirect|apply quiet_raise].
Qed.

Lemma gate_quiet (m : M unit) h :
  current_user (request h) = false -> trace (authenticated m h).2 = trace h.
Proof.
  intros Hu. rewrite (authenticated_anonymous _ _ Hu).
  destruct (_ || _); [apply quiet_redirect|reflexivity].
Qed.

Lemma quiet_get_empty name : quiet (get name []).
Proof.
  apply quiet_authenticated. unfold str_eqb.
  rewrite bool_decide_eq_true_2 by reflexivity.
  apply quiet_bind; [apply quiet_gets|]. intros r. apply quiet_redirect.
Qed.

Lemma quiet_post_empty name : quiet (post name []).
Proof.
  apply quiet_authenticated. unfold str_eqb.
  rewrite bool_decide_eq_true_2 by reflexivity. apply quiet_raise.
Qed.

(** Without a current user no method reaches the registry or a backend:
    the trace stays as it is; a request whose method is neither GET nor
    HEAD is refused with 403, and a GET is sent to the login URL by a
    redirect that is not permanent. *)
Theorem anonymous_request_stopped (h : RequestHandler) (name path : str) :
  current_user (request h) = false ->
  trace (get name path h).2 = trace h
  /\ trace (post name path h).2 = trace h
  /\ trace (TbFontHandler_get h).2 = trace h
  /\ (request_method (request h) = py "POST" ->
      post name path h = (inl (HTTPError 403 None), h))
  /\ (request_method (request h) = py "GET" ->
      get name path h = redirect (login_redirect_url (request h)) false h
      /\ TbFontHandler_get h
         = redirect (login_redirect_url (request h)) false h).
Proof.
  intros Hu. unfold get, post, TbFontHandler_get.
  rewrite !(authenticated_anonymous _ _ Hu).
  split; [|split; [|split; [|split]]].
  1-3: destruct (_ || _); [apply quiet_redirect|reflexivity].
  - intros Hm. rewrite Hm. reflexivity.
  - intros Hm. rewrite Hm. split; reflexivity.
Qed.

Lemma preserves_manager_redirect url permanent :
  preserves tensorboard_manager (redirect url permanent).
Proof. unfold redirect, set_header. preserve. Qed.

Lemma preserves_manager_adapter app r :
  preserves tensorboard_manager (handle_wsgi_request_with_instance app r).
Proof.
  intros h. rewrite adapter_state. reflexivity.
Qed.

Lemma preserves_manager_replay r : preserves tensorboard_manager (replay r).
Proof. unfold replay, set_header, write. preserve. Qed.

Lemma preserves_manager_impl name path :
  preserves tensorboard_manager (_impl name path).
Proof.
  intros h.
  destruct (tensorboard_manager h !! name) as [instance|] eqn:Hm.
  - rewrite (_impl_registered _ _ _ _ Hm). cbv zeta.
    set (h1 := (log (GetItem name) _).2).
    pose proof (preserves_manager_adapter (tb_app instance)
                  (with_path path (request h)) h1) as Ha.
    destruct (handle_wsgi_request_with_instance _ _ h1) as [[e|r] h2];
      cbn [snd] in *.
    + rewrite Ha. reflexivity.
    + rewrite (preserves_manager_replay r h2), Ha. reflexivity.
  - rewrite (_impl_unregistered _ _ _ Hm). reflexivity.
Qed.

Lemma preserves_manager_authenticated (m : M unit) :
  preserves tensorboard_manager m ->
  preserves tensorboard_manager (authenticated m).
Proof.
  intros Hm. unfold authenticated.
  apply preserves_bind; [apply preserves_gets|]. intros r.
  destruct (current_user r); [exact Hm|].
  destruct (_ || _); [apply preserves_manager_redirect|apply preserves_raise].
Qed.

(** The font handler is the instance handler for the name ["1"], with the
    whole request path in the place of the sub-path. *)
Theorem font_handler_is_instance_one (h : RequestHandler) :
  TbFontHandler_get h
  = authenticated (_impl (py "1") (request_path (request h))) h.
Proof.
  unfold TbFontHandler_get, authenticated, _impl, mbind, M_bind, gets,
    set_request_path, modify.
  destruct h as [[m p q hs] mg sc hd wb fin hw tr]. cbn.
  destruct (current_user _); reflexivity.
Qed.

(** No method of the handlers writes to the registry. *)
Theorem registry_read_only (h : RequestHandler) (name path : str) :
  tensorboard_manager (get name path h).2 = tensorboard_manager h
  /\ tensorboard_manager (post name path h).2 = tensorboard_manager h
  /\ tensorboard_manager (TbFontHandler_get h).2 = tensorboard_manager h
  /\ tensorboard_manager (check_xsrf_cookie h).2 = tensorboard_manager h.
Proof.
  repeat split.
  - apply preserves_manager_authenticated.
    destruct (str_eqb path []); [|apply preserves_manager_impl].
    apply preserves_bind; [apply preserves_gets|]. intros r.
    apply preserves_manager_redirect.
  - apply preserves_manager_authenticated.
    destruct (str_eqb path []);
      [apply preserves_raise|apply preserves_manager_impl].
  - apply preserves_manager_authenticated.
    apply preserves_bind; [apply preserves_gets|]. intros m.
    apply preserves_bind; [intros ?; reflexivity|]. intros _.
    destruct (m !! py "1") as [instance|]; [|apply preserves_raise].
    apply preserves_bind; [intros ?; reflexivity|]. intros _.
    apply preserves_bind; [apply preserves_gets|]. intros r.
    apply preserves_bind; [apply preserves_manager_adapter|]. intros resp.
    apply (preserves_manager_replay resp).
  - unfold check_xsrf_cookie. revert h. fold (preserves (A := unit) tensorboard_manager).
    preserve.
Qed.

Lemma _impl_invoked h name path :
  invoked (trace (_impl name path h).2)
  = invoked (trace h)
    ++ match tensorboard_manager h !! name with
       | Some instance =>
         [(tb_app instance, build_environ (with_path path (request h)))]
       | None => []
       end.
Proof.
  destruct (tensorboard_manager h !! name) as [instance|] eqn:Hm.
  - rewrite (_impl_registered _ _ _ _ Hm). cbv zeta.
    set (h1 := (log (GetItem name) _).2).
    pose proof (handle_wsgi_invoked (tb_app instance)
                  (with_path path (request h)) h1) as Hi.
    assert (H1 : invoked (trace h1) = invoked (trace h)).
    { subst h1. cbn. rewrite !invoked_app. cbn. now rewrite !app_nil_r. }
    destruct (handle_wsgi_request_with_instance _ _ h1) as [[e|r] h2];
      cbn [snd] in *.
    + now rewrite Hi, H1.
    + now rewrite (quiet_replay r h2), Hi, H1.
  - rewrite (_impl_unregistered _ _ _ Hm). cbn.
    rewrite invoked_app. cbn. reflexivity.
Qed.

(** Whatever the request, GET and POST call at most one application, and
    then the one registered under the name of the route, on the
    environment built from the request with the sub-path as its path. *)
Theorem only_the_named_application (h : RequestHandler) (name path : str) :
  forall out, out = get name path h \/ out = post name path h ->
  invoked (trace out.2) = invoked (trace h)
  \/ exists instance,
       tensorboard_manager h !! name = Some instance
       /\ invoked (trace out.2)
          = invoked (trace h)
            ++ [(tb_app instance, build_environ (with_path path (request h)))].
Proof.
  assert (Himpl : forall out, out = _impl name path h ->
            invoked (trace out.2) = invoked (trace h)
            \/ exists instance,
                 tensorboard_manager h !! name = Some instance
                 /\ invoked (trace out.2)
                    = invoked (trace h)
                      ++ [(tb_app instance,
                           build_environ (with_path path (request h)))]).
  { intros out ->. rewrite _impl_invoked.
    destruct (tensorboard_manager h !! name) as [instance|].
    - right. exists instance. now split.
    - left. now rewrite app_nil_r. }
  intros out [-> | ->].
  - destruct path as [|c path']; [left; now rewrite quiet_get_empty|].
    destruct (current_user (request h)) eqn:Hu.
    + apply Himpl. now apply get_authenticated.
    + left. unfold get. now rewrite (gate_quiet _ _ Hu).
  - destruct path as [|c path']; [left; now rewrite quiet_post_empty|].
    destruct (current_user (request h)) eqn:Hu.
    + apply Himpl. now apply post_authenticated.
    + left. unfold post. now rewrite (gate_quiet _ _ Hu).
Qed.

Lemma preserves_request_replay r : preserves request (replay r).
Proof. unfold replay, set_header, write. preserve. Qed.

(** [_impl] leaves the sub-path in [request.path], whether it answers,
    raises 404 or fails; the method and the query of the request stay. *)
Theorem impl_assigns_request_path (h : RequestHandler) (name path : str) :
  request_path (request (_impl name path h).2) = path
  /\ request_method (request (_impl name path h).2) = request_method (request h)
  /\ request_query (request (_impl name path h).2) = request_query (request h).
Proof.
  assert (Hr : request (_impl name path h).2 = with_path path (request h));
    [|rewrite Hr; repeat split].
  destruct (tensorboard_manager h !! name) as [instance|] eqn:Hm.
  - rewrite (_impl_registered _ _ _ _ Hm). cbv zeta.
    set (h1 := (log (GetItem name) _).2).
    assert (H1 : request h1 = with_path path (request h)) by reflexivity.
    pose proof (adapter_state (tb_app instance)
                  (with_path path (request h)) h1) as Ha.
    destruct (handle_wsgi_request_with_instance _ _ h1) as [[e|r] h2];
      cbn [snd] in *.
    + rewrite Ha. exact H1.
    + rewrite (preserves_request_replay r h2), Ha. exact H1.
  - rewrite (_impl_unregistered _ _ _ Hm). reflexivity.
Qed.

Lemma finish_success h :
  (finish h).1 = inr tt ->
  _finished (finish h).2 = true
  /\ _headers_written (finish h).2 = true
  /\ _write_buffer (finish h).2 = _write_buffer h.
Proof.
  unfold finish.
  destruct (_finished h); [discriminate|].
  destruct (_headers_written h); [intros _; repeat split|].
  destruct (not_modified h); [intros _; repeat split|].
  destruct (no_body_status _); [|intros _; repeat split].
  destruct (_write_buffer h) eqn:Hw; [intros _; repeat split|discriminate].
  cbn. now rewrite Hw.
Qed.

Lemma replay_success (r : response) h :
  (replay r h).1 = inr tt ->
  _write_buffer (replay r h).2 = _write_buffer h ++ [body r]
  /\ _finished (replay r h).2 = true
  /\ _headers_written (replay r h).2 = true.
Proof.
  unfold replay, mbind, M_bind, set_status, modify.
  destruct (for_each_set_header_body (headers r) (with_status (status_code r) h))
    as [Hb Hf].
  destruct (for_each _ _ _) as [[e'|[]] h']; cbn [fst snd] in *;
    [discriminate|].
  clear Hf. unfold write, mbind, M_bind, gets, modify. cbn.
  destruct (_finished h') eqn:Hfh; cbn; [discriminate|].
  intros Hs. destruct (finish_success _ Hs) as (H1 & H2 & H3).
  split; [rewrite H3; cbn; now rewrite Hb|].
  split; [exact H1|exact H2].
Qed.

(** When [_impl] returns, the name was registered, the response is
    finished, and exactly one chunk has been written: the body. *)
Theorem success_finishes (h : RequestHandler) (name path : str) :
  (_impl name path h).1 = inr tt ->
  is_Some (tensorboard_manager h !! name)
  /\ _finished (_impl name path h).2 = true
  /\ _headers_written (_impl name path h).2 = true
  /\ exists b, _write_buffer (_impl name path h).2 = _write_buffer h ++ [b].
Proof.
  destruct (tensorboard_manager h !! name) as [instance|] eqn:Hm.
  2:{ rewrite (_impl_unregistered _ _ _ Hm). discriminate. }
  rewrite (_impl_registered _ _ _ _ Hm). cbv zeta.
  set (h1 := (log (GetItem name) _).2).
  pose proof (adapter_state (tb_app instance)
                (with_path path (request h)) h1) as Ha.
  destruct (handle_wsgi_request_with_instance _ _ h1) as [[e|r] h2];
    cbn [fst snd] in *; [discriminate|].
  intros Hr. destruct (replay_success r h2 Hr) as (Hb & Hf & Hw).
  split; [now eexists|]. split; [exact Hf|]. split; [exact Hw|].
  exists (body r). rewrite Hb, Ha. reflexivity.
Qed.

Lemma for_each_set_header_invalid (hs : list (str * str)) h :
  Exists (fun kv => valid_header_value kv.2 = false) hs ->
  (for_each hs (fun '(k, v) => set_header k v) h).1 = inl ValueError.
Proof.
  intros He. revert h. induction hs as [|[k v] hs IH]; intros h.
  - inversion He.
  - cbn [for_each]. unfold mbind, M_bind.
    destruct (valid_header_value v) eqn:Hv.
    + destruct (set_header_cases k v h) as [-> | ->]; [reflexivity|].
      apply IH. inversion He as [? ? Hx|? ? Hx]; subst; [|exact Hx].
      cbn in Hx. congruence.
    + unfold set_header. rewrite Hv. reflexivity.
Qed.

Lemma for_each_set_header_status (hs : list (str * str)) :
  preserves _status_code (for_each hs (fun '(k, v) => set_header k v)).
Proof. unfold set_header. preserve. Qed.

(** A header value the server refuses makes [_impl] raise [ValueError]
    after the status has been set and before the body is written. *)
Theorem invalid_header_value_aborts (h : RequestHandler) (name path : str)
    (instance : Instance) (pre : list start_response_call)
    (c : start_response_call) (code : Z) (b : bytes) :
  tensorboard_manager h !! name = Some instance ->
  calls (tb_app instance (build_environ (with_path path (request h))))
  = pre ++ [c] ->
  ending (tb_app instance (build_environ (with_path path (request h))))
  = Returns (ResBytes b) ->
  py_int (first_token (sr_status c)) = Some code ->
  Exists (fun kv => valid_header_value kv.2 = false) (sr_headers c) ->
  let out := _impl name path h in
  out.1 = inl ValueError
  /\ _status_code out.2 = code
  /\ _write_buffer out.2 = _write_buffer h
  /\ _finished out.2 = _finished h.
Proof.
  intros Hm Hc He Hi Hbad out. subst out.
  rewrite (_impl_registered _ _ _ _ Hm). cbv zeta.
  rewrite (handle_wsgi_returns _ _ _ _ _ _ _ Hc He Hi).
  unfold replay, mbind, M_bind, set_status, modify. cbn [status_code headers body].
  set (h3 := with_status code _).
  pose proof (for_each_set_header_invalid _ h3 Hbad) as Hr.
  pose proof (for_each_set_header_status (sr_headers c) h3) as Hs.
  destruct (for_each_set_header_body (sr_headers c) h3) as [Hb Hf].
  destruct (for_each _ _ h3) as [[e|[]] h4]; cbn [fst snd] in *;
    [|discriminate].
  injection Hr as ->. rewrite Hs, Hb, Hf. now subst h3.
Qed.

(** ** The XSRF override, further *)

(** The override lets a request through exactly when the inherited check
    does, or when the inherited check raised an [HTTPError], the method
    is POST and the referer check passes; and it never changes the
    handler. *)
Theorem xsrf_passes_exactly_when (h : RequestHandler) :
  ((check_xsrf_cookie h).1 = inr tt <->
   super_check_xsrf_cookie (request h) = None
   \/ ((exists e, super_check_xsrf_cookie (request h) = Some e
                  /\ is_http_error e = true)
       /\ request_method (request h) = py "POST"
       /\ check_referer (request h) = true))
  /\ (check_xsrf_cookie h).2 = h.
Proof.
  unfold check_xsrf_cookie, mbind, M_bind, gets, raise, mret, M_ret. cbn.
  destruct (super_check_xsrf_cookie (request h)) as [e|] eqn:Hs.
  2:{ split; [|reflexivity]. split; [now left|reflexivity]. }
  destruct e as [code msg| | | | | |m];
    try (split; [|reflexivity]; split;
         [discriminate
         |intros [Hn|((e & He & Hh) & _)];
          [discriminate|injection He as <-; discriminate]]).
  unfold str_eqb. case_bool_decide as Hm.
  - destruct (check_referer (request h)) eqn:Hr; cbn.
    + split; [|reflexivity]. split; [|reflexivity].
      intros _. right. split; [eexists; split; [reflexivity|reflexivity]|].
      now split.
    + destruct (headers_get _ _) as [[|c r]|]; cbn;
        (split; [|reflexivity]; split;
         [discriminate|intros [Hn|(_ & _ & Hf)]; discriminate]).
  - split; [|reflexivity]. split; [discriminate|].
    intros [Hn|(_ & Hp & _)]; [discriminate|contradiction].
Qed.

(** An exception of the inherited check that is not an [HTTPError] is
    not caught: it is raised as it is, for POST as for any other method. *)
Theorem xsrf_other_errors_propagate (h : RequestHandler) (e : exn) :
  super_check_xsrf_cookie (request h) = Some e ->
  is_http_error e = false ->
  check_xsrf_cookie h = (inl e, h).
Proof.
  intros Hs He. unfold check_xsrf_cookie, mbind, M_bind, gets, raise. cbn.
  rewrite Hs. destruct e; [discriminate|reflexivity..].
Qed.

(** A Referer header that is present but empty counts as no referer: the
    refusal reads as of unknown origin. *)
Theorem xsrf_empty_referer (h : RequestHandler) (code : Z)
    (message : option str) :
  super_check_xsrf_cookie (request h) = Some (HTTPError code message) ->
  request_method (request h) = py "POST" ->
  check_referer (request h) = false ->
  headers_get (py "Referer") (request_headers (request h)) = Some [] ->
  check_xsrf_cookie h
  = (inl (HTTPError 403 (Some (py "Blocking request from unknown origin"))), h).
Proof.
  intros Hs Hm Hr Hg. unfold check_xsrf_cookie, mbind, M_bind, gets, raise. cbn.
  rewrite Hs, Hm, Hr, Hg. reflexivity.
Qed.

(** What the override raises is the exception of the inherited check or
    an [HTTPError] with status 403 and a message. *)
Theorem xsrf_raises_inherited_or_403 (h : RequestHandler) (e : exn) :
  (check_xsrf_cookie h).1 = inl e ->
  super_check_xsrf_cookie (request h) = Some e
  \/ exists message, e = HTTPError 403 (Some message).
Proof.
  unfold check_xsrf_cookie, mbind, M_bind, gets, raise, mret, M_ret. cbn.
  destruct (super_check_xsrf_cookie (request h)) as [e'|]; [|discriminate].
  destruct e' as [code msg| | | | | |m];
    try (intros He; injection He as <-; now left).
  destruct (str_eqb _ _).
  - destruct (check_referer _); cbn; [discriminate|].
    destruct (headers_get _ _) as [[|c r]|]; cbn;
      intros He; injection He as <-; right; eexists; reflexivity.
  - intros He; injection He as <-; now left.
Qed.

End Further.

(** ** Escaped paths *)

Lemma hexdigit_range n : n < 16 -> 48 <= hexdigit n /\ hexdigit n < 128.
Proof.
  intros Hn. unfold hexdigit. destruct (N.ltb_spec n 10); lia.
Qed.

Lemma hexval_hexdigit n : n < 16 -> hexval (hexdigit n) = Some n.
Proof.
  intros Hn. unfold hexval, hexdigit. destruct (N.ltb_spec n 10) as [Hl|Hl].
  - replace ((48 <=? 48 + n) && (48 + n <=? 57)) with true
      by (symmetry; apply andb_true_iff; split; apply N.leb_le; lia).
    f_equal. lia.
  - replace ((48 <=? 55 + n) && (55 + n <=? 57)) with false
      by (symmetry; apply andb_false_iff; right; apply N.leb_gt; lia).
    replace ((65 <=? 55 + n) && (55 + n <=? 70)) with true
      by (symmetry; apply andb_true_iff; split; apply N.leb_le; lia).
    f_equal. lia.
Qed.

Lemma nibbles c : c < 256 -> c / 16 < 16 /\ c mod 16 < 16.
Proof.
  intros Hc. split.
  - apply N.Div0.div_lt_upper_bound. lia.
  - apply N.mod_lt. discriminate.
Qed.

Lemma escape_all_ascii (s : bytes) :
  Forall (fun c => c < 256) s -> is_ascii (escape_all s).
Proof.
  induction 1 as [|c s Hc _ IH]; [constructor|].
  destruct (nibbles c Hc) as [Hh Hl].
  cbn [escape_all flat_map List.app].
  repeat constructor; [apply hexdigit_range, Hh|apply hexdigit_range, Hl|].
  exact IH.
Qed.

Lemma split_escape_all (s : bytes) :
  Forall (fun c => c < 256) s ->
  split percent (escape_all s)
  = [] :: List.map (fun c => [hexdigit (c / 16); hexdigit (c mod 16)]) s.
Proof.
  induction 1 as [|c s Hc _ IH]; [reflexivity|].
  destruct (nibbles c Hc) as [Hh Hl].
  apply hexdigit_range in Hh, Hl.
  cbn [escape_all flat_map List.app List.map].
  change (flat_map _ s) with (escape_all s).
  cbn [split]. rewrite N.eqb_refl.
  replace (hexdigit (c / 16) =? percent) with false
    by (symmetry; apply N.eqb_neq; unfold percent; lia).
  replace (hexdigit (c mod 16) =? percent) with false
    by (symmetry; apply N.eqb_neq; unfold percent; lia).
  rewrite IH. reflexivity.
Qed.

Lemma unquote_escaped_items (s : bytes) :
  Forall (fun c => c < 256) s ->
  flat_map unquote_item
    (List.map (fun c => [hexdigit (c / 16); hexdigit (c mod 16)]) s) = s.
Proof.
  induction 1 as [|c s Hc _ IH]; [reflexivity|].
  destruct (nibbles c Hc) as [Hh Hl].
  cbn [List.map flat_map]. rewrite IH. unfold unquote_item.
  rewrite (hexval_hexdigit _ Hh), (hexval_hexdigit _ Hl).
  cbn [List.app]. f_equal. symmetry. apply N.div_mod. discriminate.
Qed.

Lemma unquote_to_bytes_escape_all (s : bytes) :
  Forall (fun c => c < 256) s -> unquote_to_bytes (escape_all s) = s.
Proof.
  intros Hs. destruct s as [|c s]; [reflexivity|].
  unfold unquote_to_bytes.
  rewrite (utf8_encode_ascii _ (escape_all_ascii _ Hs)), (split_escape_all _ Hs).
  cbn [escape_all flat_map List.app List.map].
  exact (unquote_escaped_items (c :: s) Hs).
Qed.

(** A path written entirely in escapes arrives decoded: when every octet
    of [s] is written [%XX] in the request path, and [s] itself holds no
    ['%'], [PATH_INFO] is [s], each octet as the character of the same
    code. *)
Theorem escaped_path_round_trip (r : HTTPServerRequest) (s : bytes) :
  Forall (fun c => c < 256) s ->
  contains percent s = false ->
  request_path r = escape_all s ->
  PATH_INFO (build_environ r) = s.
Proof.
  intros Hs Hp Hr. cbn. unfold to_wsgi_str, url_unescape.
  rewrite Hr, (unquote_to_bytes_escape_all _ Hs).
  unfold unquote. rewrite Hp. reflexivity.
Qed.

(** ** The bootstrap *)

Lemma ujoin_mount (base route rest : str) (c : N) :
  route = slash :: c :: rest ->
  c <> slash ->
  strip route = c :: rest ->
  endswith_slash route = false ->
  startswith_slash base = true ->
  ujoin [base; route] = mount_prefix base ++ route.
Proof.
  intros Hr Hc Hs He Hb. unfold ujoin, mount_prefix.
  cbn [hd List.last List.map]. rewrite Hb, He, Hs.
  destruct (strip base) as [|b0 bs]; cbn [List.filter nonempty join_with List.app].
  - unfold str_eqb. rewrite bool_decide_eq_false_2; [now rewrite Hr|].
    intros Heq. injection Heq as Heq _. contradiction.
  - unfold str_eqb. rewrite bool_decide_eq_false_2; [now rewrite Hr|].
    intros Heq. injection Heq as _ Heq. destruct bs; discriminate.
Qed.

(** Closes [ujoin [base; route] = mount_prefix base ++ route] for a given
    route. *)
Ltac mount_route Hb :=
  eapply ujoin_mount;
  [reflexivity | intros Hx; discriminate Hx | reflexivity | reflexivity | exact Hb].

(** With a base URL that starts with a slash, the bootstrap makes one call
    to [add_handlers], for every host, and its routes are the route
    patterns of the module, each behind the base URL stripped of its
    slashes: the five routes when the manager could be imported, which is
    then put in the settings, and the single error route when it could
    not, the settings staying as they were. *)
Theorem routes_mounted_under_base_url
    (imported : option (gmap str Instance)) (nb_app : ServerApp) :
  startswith_slash (base_url nb_app) = true ->
  let out := (load_jupyter_server_extension imported nb_app).2 in
  added_handlers out
  = added_handlers nb_app
    ++ [(py ".*$",
         List.map (fun '(route, cls) =>
                     (mount_prefix (base_url nb_app) ++ route, cls))
           (match imported with
            | Some _ => full_routes
            | None => error_routes
            end))]
  /\ settings_tensorboard_manager out
     = match imported with
       | Some manager => Some manager
       | None => settings_tensorboard_manager nb_app
       end.
Proof.
  intros Hb out. subst out. unfold load_jupyter_server_extension.
  destruct imported as [manager|]; cbn [snd added_handlers settings_tensorboard_manager];
    (split; [|reflexivity]); f_equal; f_equal; f_equal;
    unfold full_routes, error_routes; cbn [List.map];
    repeat (f_equal; [f_equal; mount_route Hb|]);
    do 2 f_equal; mount_route Hb.
Qed.

(** ** Examples of the further properties *)

Lemma backend_exception_propagates_witness :
  let h := arriving "GET" "/tensorboard_pro/1/data" app_failing in
  let out := _impl (H := server) (py "1") (py "/data") h in
  out.1 = inl (Exception (py "backend down"))
  /\ _write_buffer out.2 = [] /\ _finished out.2 = false.
Proof.
  intros h out.
  destruct (backend_exception_propagates (H := server) h (py "1") (py "/data")
              {| tb_app := app_failing |} (Exception (py "backend down"))
              eq_refl eq_refl) as (H1 & _ & _ & _ & H5 & H6).
  repeat split; assumption.
Defined.

Lemma unparsable_status_witness :
  let r := sample_request "GET" "/data" "" [] in
  let h := prepare r sample_manager [] in
  (handle_wsgi_request_with_instance (H := server) app_bad_status r h).1
  = inl ValueError
  /\ trace (handle_wsgi_request_with_instance (H := server) app_bad_status r h).2
     = trace h ++ [Invoke app_bad_status (build_environ r)].
Proof.
  intros r h.
  exact (unparsable_status (H := server) app_bad_status r h []
           {| sr_status := py "OK 200"; sr_headers := []; sr_exc_info := None |}
           (ResBytes (py "x")) eq_refl eq_refl eq_refl).
Defined.

Lemma reason_phrase_dropped_witness :
  let r := sample_request "GET" "/data" "" [] in
  (handle_wsgi_request_with_instance (H := server) app_twice r
     (prepare r sample_manager [])).1
  = inr {| status_code := 500; headers := [(py "X-Error", py "1")];
           body := py "failed" |}.
Proof.
  intros r.
  exact (reason_phrase_dropped (H := server) app_twice r
           (prepare r sample_manager [])
           [ {| sr_status := py "200 OK";
                sr_headers := [(py "Content-Type", py "text/plain")];
                sr_exc_info := None |} ]
           {| sr_status := py "500 Internal Server Error";
              sr_headers := [(py "X-Error", py "1")];
              sr_exc_info := Some (Exception (py "boom")) |}
           (py "500") (py "Internal Server Error") 500%Z (py "failed")
           eq_refl eq_refl eq_refl eq_refl eq_refl).
Defined.

Lemma exc_info_ignored_witness :
  let r := sample_request "GET" "/data" "" [] in
  let h := prepare r sample_manager [] in
  (handle_wsgi_request_with_instance (H := server) app_twice r h).1
  = (handle_wsgi_request_with_instance (H := server) app_twice_plain r h).1.
Proof.
  intros r h.
  exact (exc_info_ignored (H := server) app_twice app_twice_plain r h
           eq_refl eq_refl).
Defined.

Lemma post_is_get_witness :
  post (H := server) (py "1") (py "/data")
    (arriving "POST" "/tensorboard_pro/1/data" app_echo)
  = get (H := server) (py "1") (py "/data")
      (arriving "POST" "/tensorboard_pro/1/data" app_echo).
Proof.
  assert (Hp : py "/data" <> []) by discriminate.
  exact (post_is_get (H := server)
           (arriving "POST" "/tensorboard_pro/1/data" app_echo)
           (py "1") (py "/data") eq_refl Hp).
Defined.

Lemma anonymous_request_stopped_witness :
  let h := arriving "POST" "/tensorboard_pro/1/data" app_echo in
  trace (post (H := anonymous) (py "1") (py "/data") h).2 = trace h
  /\ post (H := anonymous) (py "1") (py "/data") h
     = (inl (HTTPError 403 None), h).
Proof.
  intros h.
  destruct (anonymous_request_stopped (H := anonymous) h (py "1") (py "/data")
              eq_refl) as (_ & Ht & _ & Hp & _).
  split; [exact Ht|exact (Hp eq_refl)].
Defined.

Lemma only_the_named_application_witness :
  let h := arriving "GET" "/tensorboard_pro/1/data" app_echo in
  let out := get (H := server) (py "1") (py "/data") h in
  invoked (trace out.2) = invoked (trace h)
  \/ exists instance,
       tensorboard_manager h !! py "1" = Some instance
       /\ invoked (trace out.2)
          = invoked (trace h)
            ++ [(tb_app instance,
                 build_environ (with_path (py "/data") (request h)))].
Proof.
  intros h out.
  exact (only_the_named_application (H := server) h (py "1") (py "/data")
           out (or_introl eq_refl)).
Defined.

Lemma success_finishes_witness :
  let h := arriving "GET" "/tensorboard_pro/1/data" app_echo in
  is_Some (tensorboard_manager h !! py "1")
  /\ _finished (_impl (H := server) (py "1") (py "/data") h).2 = true
  /\ _headers_written (_impl (H := server) (py "1") (py "/data") h).2 = true
  /\ exists b,
       _write_buffer (_impl (H := server) (py "1") (py "/data") h).2
       = _write_buffer h ++ [b].
Proof.
  intros h.
  exact (success_finishes (H := server) h (py "1") (py "/data") eq_refl).
Defined.

Lemma invalid_header_value_aborts_witness :
  let h := arriving "GET" "/tensorboard_pro/1/data" app_bad_header in
  let out := _impl (H := server) (py "1") (py "/data") h in
  out.1 = inl ValueError
  /\ _status_code out.2 = 200%Z
  /\ _write_buffer out.2 = _write_buffer h
  /\ _finished out.2 = _finished h.
Proof.
  intros h.
  assert (Hbad : Exists (fun kv : str * str =>
                           valid_header_value (Host := server) kv.2 = false)
                   [(py "X-A", py "1"); (py "X-B", [10])])
    by (right; left; reflexivity).
  exact (invalid_header_value_aborts (H := server) h (py "1") (py "/data")
           {| tb_app := app_bad_header |} []
           {| sr_status := py "200 OK";
              sr_headers := [(py "X-A", py "1"); (py "X-B", [10])];
              sr_exc_info := None |} 200%Z (py "x")
           eq_refl eq_refl eq_refl eq_refl Hbad).
Defined.


Lemma xsrf_other_errors_propagate_witness :
  let h := arriving "POST" "/tensorboard_pro/1/data" app_echo in
  check_xsrf_cookie (H := broken_host) h = (inl RuntimeError, h).
Proof.
  intros h.
  exact (xsrf_other_errors_propagate (H := broken_host) h RuntimeError
           eq_refl eq_refl).
Defined.

Lemma xsrf_empty_referer_witness :
  let h := prepare {| request_method := py "POST";
                      request_path := py "/tensorboard_pro/1/data";
                      request_query := [];
                      request_headers := [(py "Referer", [])] |}
             sample_manager [] in
  check_xsrf_cookie (H := server) h
  = (inl (HTTPError 403 (Some (py "Blocking request from unknown origin"))), h).
Proof.
  intros h.
  exact (xsrf_empty_referer (H := server) h 403%Z _ eq_refl eq_refl eq_refl
           eq_refl).
Defined.

Lemma xsrf_raises_inherited_or_403_witness :
  let h := arriving "POST" "/tensorboard_pro/1/data" app_echo in
  super_check_xsrf_cookie (Host := server) (request h)
  = Some (HTTPError 403 (Some (py "Blocking request from unknown origin")))
  \/ exists message,
       HTTPError 403 (Some (py "Blocking request from unknown origin"))
       = HTTPError 403 (Some message).
Proof.
  intros h.
  exact (xsrf_raises_inherited_or_403 (H := server) h
           (HTTPError 403 (Some (py "Blocking request from unknown origin")))
           eq_refl).
Defined.

Lemma escaped_path_round_trip_witness :
  PATH_INFO (build_environ (sample_request "GET" "%2F%61%20%62" "" []))
  = py "/a b".
Proof.
  assert (Hs : Forall (fun c => c < 256) (py "/a b"))
    by (apply (bool_decide_unpack _); vm_compute; exact I).
  exact (escaped_path_round_trip (sample_request "GET" "%2F%61%20%62" "" [])
           (py "/a b") Hs eq_refl eq_refl).
Defined.

Lemma routes_mounted_under_base_url_witness :
  let out := (load_jupyter_server_extension (Some sample_manager) sample_app).2 in
  added_handlers out
  = added_handlers sample_app
    ++ [(py ".*$",
         List.map (fun '(route, cls) =>
                     (mount_prefix (base_url sample_app) ++ route, cls))
           full_routes)]
  /\ settings_tensorboard_manager out = Some sample_manager.
Proof.
  exact (routes_mounted_under_base_url (Some sample_manager) sample_app eq_refl).
Defined.
